(** * Token lifecycle of the TechLearn backend

    A shallow embedding of the authentication server (register, login,
    refresh, logout) and of the [authenticateToken] middleware of the
    resource server, together with the Mongoose models they use.

    Modelling conventions.
    - A request field is [option]: [None] is JavaScript's [undefined];
      a field that is present has the type the interface gives it.
    - A name or a password is a sequence of UTF-16 code units, which is
      what the length of a JavaScript string and its regular expressions
      count.
    - Strings that may carry a JSON Web Token are sequences of symbols: a
      character, or one signed token taken as an atomic chunk.  A token
      records the claims it carries and the key its signature verifies
      under, which is all that [jwt.sign] and [jwt.verify] depend on.
    - A bcrypt hash records the plaintext it was derived from, and is
      taken to tell apart any two passwords that differ in what bcrypt
      reads of them; any other string offered as a hash is a literal.
    - The two collections are lists of documents kept in insertion order.
      Handlers run in a monad threading the collections, with the
      exceptions that the [try]/[catch] of each handler turns into 500.
      The store itself is assumed to answer (no connection failure), both
      signing secrets are assumed configured, and the rate limiter in front
      of [/register] and [/login] is not part of the handlers.
    - Time is [Date.now()], in milliseconds, read once per request. *)

From Stdlib Require Import String Ascii List NArith ZArith Bool Arith Lia.
Import ListNotations.
Open Scope string_scope.
Open Scope list_scope.
Open Scope nat_scope.

(* ================================================================== *)
(** ** JavaScript values *)

Module Js.

(** A string is a sequence of UTF-16 code units: its [length] and the
    character classes of a regular expression count and test code
    units. *)
Definition str : Type := list N.

(** A string literal of the source, whose characters are all ASCII. *)
Definition lit (s : string) : str :=
  map N_of_ascii (list_ascii_of_string s).

Fixpoint str_eqb (s t : str) : bool :=
  match s, t with
  | [], [] => true
  | a :: s', b :: t' => N.eqb a b && str_eqb s' t'
  | _, _ => false
  end.

(** [String(v)] for a field that is a string or [undefined]. *)
Definition ToString (v : option str) : str :=
  match v with
  | Some s => s
  | None => lit "undefined"
  end.

(** [a || b] where [a] is a boolean or [undefined]. *)
Definition or_bool (a : option bool) (b : bool) : bool :=
  match a with
  | Some true => true
  | _ => b
  end.

Definition in_range (lo hi c : N) : bool := (lo <=? c)%N && (c <=? hi)%N.

(** [\d], [[a-z]], [[A-Z]]. *)
Definition is_digit : N -> bool := in_range 48 57.
Definition is_lower : N -> bool := in_range 97 122.
Definition is_upper : N -> bool := in_range 65 90.

(** [[a-zA-Z0-9_]]. *)
Definition is_word (c : N) : bool :=
  is_lower c || is_upper c || is_digit c || (c =? 95)%N.

(** [.] matches any character but a line terminator: LF, CR, U+2028
    and U+2029. *)
Definition is_line_terminator (c : N) : bool :=
  (c =? 10)%N || (c =? 13)%N || (c =? 8232)%N || (c =? 8233)%N.

Definition dot (c : N) : bool := negb (is_line_terminator c).

(** [(?=.*C)] at the start of [cs]: some character of class [C] is
    reached through characters matched by [.]. *)
Fixpoint lookahead (cls : N -> bool) (cs : str) : bool :=
  match cs with
  | [] => false
  | c :: rest => cls c || (dot c && lookahead cls rest)
  end.

End Js.

(* ================================================================== *)
(** ** jsonwebtoken *)

Module Jwt.

(** The payload fields this system writes and reads.  [iat] and [exp]
    are seconds since the epoch. *)
Record Claims : Type := mkClaims {
  userId : option nat;
  name : option Js.str;
  isAdmin : option bool;
  iat : Z;
  exp : option Z
}.

Record Token : Type := mkToken {
  payload : Claims;
  key : string
}.

Inductive symbol : Type :=
| Chr (c : ascii)
| Tok (t : Token).

(** A string that may contain a token. *)
Definition jstring : Type := list symbol.

Inductive VerifyError : Type :=
| JsonWebTokenError
| TokenExpiredError.

Definition option_eqb {A} (eqb : A -> A -> bool) (x y : option A) : bool :=
  match x, y with
  | Some a, Some b => eqb a b
  | None, None => true
  | _, _ => false
  end.

Definition claims_eqb (a b : Claims) : bool :=
  option_eqb Nat.eqb (userId a) (userId b)
  && option_eqb Js.str_eqb (name a) (name b)
  && option_eqb Bool.eqb (isAdmin a) (isAdmin b)
  && Z.eqb (iat a) (iat b)
  && option_eqb Z.eqb (exp a) (exp b).

Definition token_eqb (a b : Token) : bool :=
  claims_eqb (payload a) (payload b) && String.eqb (key a) (key b).

Definition symbol_eqb (a b : symbol) : bool :=
  match a, b with
  | Chr c, Chr d => Ascii.eqb c d
  | Tok s, Tok t => token_eqb s t
  | _, _ => false
  end.

Fixpoint jstring_eqb (s t : jstring) : bool :=
  match s, t with
  | [], [] => true
  | a :: s', b :: t' => symbol_eqb a b && jstring_eqb s' t'
  | _, _ => false
  end.

(** A plain string as a [jstring]. *)
Definition lit (s : string) : jstring := map Chr (list_ascii_of_string s).

(** [!s] is false exactly for a non-empty string. *)
Definition truthy (s : option jstring) : bool :=
  match s with
  | Some (_ :: _) => true
  | _ => false
  end.

(** Seconds of a millisecond clock: [Math.floor(Date.now() / 1000)]. *)
Definition seconds (now : Z) : Z := (now / 1000)%Z.

(** [jwt.sign(payload, secret, { expiresIn })]: the library stamps
    [iat] and [exp = iat + expiresIn]. *)
Definition sign (uid : option nat) (nm : option Js.str) (adm : option bool)
    (secret : string) (expiresIn : Z) (now : Z) : jstring :=
  [Tok {| payload := {| userId := uid; name := nm; isAdmin := adm;
                        iat := seconds now;
                        exp := Some (seconds now + expiresIn)%Z |};
          key := secret |}].

(** [jwt.verify(token, secret)]: structure first, then the signature,
    then the expiry. *)
Definition verify (t : jstring) (secret : string) (now : Z)
  : VerifyError + Claims :=
  match t with
  | [Tok j] =>
      if String.eqb (key j) secret then
        match exp (payload j) with
        | Some e =>
            if (e <=? seconds now)%Z then inl TokenExpiredError
            else inr (payload j)
        | None => inr (payload j)
        end
      else inl JsonWebTokenError
  | _ => inl JsonWebTokenError
  end.

(** [jwt.decode(token)]: the payload, without any check. *)
Definition decode (t : jstring) : option Claims :=
  match t with
  | [Tok j] => Some (payload j)
  | _ => None
  end.

(** [s.split(' ')]. *)
Fixpoint split_space (s : jstring) : list jstring :=
  match s with
  | [] => [[]]
  | Chr " "%char :: rest => [] :: split_space rest
  | c :: rest =>
      match split_space rest with
      | h :: t => (c :: h) :: t
      | [] => [[c]]
      end
  end.

End Jwt.

(* ================================================================== *)
(** ** bcrypt *)

Module Bcrypt.

Inductive Hash : Type :=
| Hashed (rounds : nat) (salt : string) (plain : Js.str)
| Literal (s : string).

(** Calls into the library, in the order they are made. *)
Inductive Call : Type :=
| CallHash (data : Js.str) (rounds : nat)
| CallCompare (data : Js.str) (h : Hash).

Definition high_surrogate (c : N) : bool := Js.in_range 55296 56319 c.
Definition low_surrogate (c : N) : bool := Js.in_range 56320 57343 c.

(** The UTF-8 bytes of a string, as the binding hands them to the
    library: a surrogate pair is one code point, a surrogate outside a
    pair is written as U+FFFD. *)
Fixpoint utf8 (s : Js.str) : list N :=
  match s with
  | [] => []
  | c :: rest =>
      if (c <? 128)%N then c :: utf8 rest
      else if (c <? 2048)%N then
        (192 + c / 64)%N :: (128 + c mod 64)%N :: utf8 rest
      else if high_surrogate c then
        match rest with
        | d :: rest' =>
            if low_surrogate d then
              let cp := (65536 + (c - 55296) * 1024 + (d - 56320))%N in
              (240 + cp / 262144)%N :: (128 + (cp / 4096) mod 64)%N ::
              (128 + (cp / 64) mod 64)%N :: (128 + cp mod 64)%N ::
              utf8 rest'
            else 239%N :: 191%N :: 189%N :: utf8 rest
        | [] => [239%N; 191%N; 189%N]
        end
      else if low_surrogate c then 239%N :: 191%N :: 189%N :: utf8 rest
      else
        (224 + c / 4096)%N :: (128 + (c / 64) mod 64)%N ::
        (128 + c mod 64)%N :: utf8 rest
  end.

(** What bcrypt reads of a password: its bytes and the NUL that ends
    them, 72 at most, repeated to fill the 72 bytes of the key
    schedule.  The binding passes the bytes with their count, so a NUL
    inside a password is a byte like any other. *)
Definition key (data : Js.str) : list N := firstn 72 (utf8 data ++ [0%N]).

Definition schedule (data : Js.str) : list N :=
  firstn 72 (concat (repeat (key data) 72)).

(** The result of [bcrypt.compare(data, h)]: two passwords with the same
    schedule have the same hash under a salt. *)
Definition matches (data : Js.str) (h : Hash) : bool :=
  match h with
  | Hashed _ _ p => Js.str_eqb (schedule data) (schedule p)
  | Literal _ => false
  end.

End Bcrypt.

(* ================================================================== *)
(** ** Mongoose models and the handler monad *)

Module Db.

(** A [User] document: the paths of [userSchema], and [_id].  A path
    may be unset until [save] validates the document. *)
Record User : Type := mkUser {
  _id : nat;
  name : option Js.str;
  password : option Bcrypt.Hash;
  createdAt : Z
}.

(** Modelled from the spec: the [RefreshToken] schema
    ([models/RefreshToken.js] is not among the sources).  Data model:
    token string (unique), owning user id, expiry timestamp, creation
    timestamp. *)
Record RefreshToken : Type := mkRefreshToken {
  rt_id : nat;
  token : Jwt.jstring;
  userId : nat;
  expiresAt : Z;
  rt_createdAt : Z
}.

Record World : Type := mkWorld {
  users : list User;
  refreshTokens : list RefreshToken;
  nextId : nat;
  bcryptCalls : list Bcrypt.Call
}.

Definition empty : World :=
  {| users := []; refreshTokens := []; nextId := 0; bcryptCalls := [] |}.

Inductive Exn : Type :=
| ValidationError (path : string)
| DuplicateKey (index : string)
| BcryptArguments.

Inductive Outcome (A : Type) : Type :=
| Ok (a : A)
| Throw (e : Exn).
Arguments Ok {A} a.
Arguments Throw {A} e.

(** Writes made before an exception stay in the store. *)
Definition M (A : Type) : Type := World -> Outcome A * World.

Definition ret {A} (a : A) : M A := fun w => (Ok a, w).

Definition bind {A B} (m : M A) (k : A -> M B) : M B :=
  fun w =>
    match m w with
    | (Ok a, w') => k a w'
    | (Throw e, w') => (Throw e, w')
    end.

Definition throw {A} (e : Exn) : M A := fun w => (Throw e, w).

Definition try_catch {A} (m : M A) (h : Exn -> M A) : M A :=
  fun w =>
    match m w with
    | (Ok a, w') => (Ok a, w')
    | (Throw e, w') => h e w'
    end.

Definition gets {A} (f : World -> A) : M A := fun w => (Ok (f w), w).

Definition modify (f : World -> World) : M unit := fun w => (Ok tt, f w).

Declare Scope handler_scope.
Delimit Scope handler_scope with handler.
Notation "x <- m ;; k" := (bind m (fun x => k))
  (at level 61, m at next level, right associativity) : handler_scope.
Notation "m ;;; k" := (bind m (fun _ => k))
  (at level 61, right associativity) : handler_scope.
Open Scope handler_scope.

(** A fresh [ObjectId], as every [new Model(...)] draws one. *)
Definition freshId : M nat :=
  fun w =>
    (Ok (nextId w),
     {| users := users w; refreshTokens := refreshTokens w;
        nextId := S (nextId w); bcryptCalls := bcryptCalls w |}).

Definition record_call (c : Bcrypt.Call) : M unit :=
  modify (fun w =>
    {| users := users w; refreshTokens := refreshTokens w;
       nextId := nextId w; bcryptCalls := bcryptCalls w ++ [c] |}).

(** [bcrypt.hash(data, rounds)]; the salt is drawn by the library. *)
Definition bcrypt_hash (salt : string) (data : option Js.str) (rounds : nat)
  : M Bcrypt.Hash :=
  match data with
  | Some d =>
      record_call (Bcrypt.CallHash d rounds) ;;;
      ret (Bcrypt.Hashed rounds salt d)
  | None => throw BcryptArguments
  end.

(** [bcrypt.compare(data, hash)] raises when an argument is missing. *)
Definition bcrypt_compare (data : option Js.str) (h : option Bcrypt.Hash)
  : M bool :=
  match data, h with
  | Some d, Some h' =>
      record_call (Bcrypt.CallCompare d h') ;;;
      ret (Bcrypt.matches d h')
  | _, _ => throw BcryptArguments
  end.

(** *** User model *)

(** The object literal given to [new User(...)]. *)
Record UserInit : Type := mkUserInit {
  init_name : option Js.str;
  init_password : option Bcrypt.Hash;
  init_isAdmin : bool
}.

(** [new User(init)]: the schema is strict, so only the paths it
    declares are kept; [createdAt] defaults to [Date.now]. *)
Definition new_User (now : Z) (init : UserInit) : M User :=
  id <- freshId ;;
  ret {| _id := id; name := init_name init;
         password := init_password init; createdAt := now |}.

(** [user.isAdmin]: [userSchema] declares no such path, so the property
    is [undefined] on every document. *)
Definition user_isAdmin (u : User) : option bool := None.

Definition name_is (q : option Js.str) (u : User) : bool :=
  Jwt.option_eqb Js.str_eqb (name u) q.

(** [User.findOne({ name: q })]. *)
Definition User_findOne (q : option Js.str) : M (option User) :=
  gets (fun w => find (name_is q) (users w)).

(** [User.findById(id)]. *)
Definition User_findById (id : option nat) : M (option User) :=
  gets (fun w =>
    match id with
    | Some i => find (fun u => _id u =? i) (users w)
    | None => None
    end).

(** The validators of [userSchema]: [name] is required with
    [minlength: 3] and [maxlength: 30]; [password] is required. *)
Definition User_validate (u : User) : option Exn :=
  match name u with
  | None => Some (ValidationError "name")
  | Some n =>
      if (length n <? 3) || (30 <? length n)
      then Some (ValidationError "name")
      else match password u with
           | None => Some (ValidationError "password")
           | Some _ => None
           end
  end.

(** [user.save()]: validation, then the insert, which the unique index
    on [name] may refuse. *)
Definition User_save (u : User) : M unit :=
  match User_validate u with
  | Some e => throw e
  | None =>
      fun w =>
        if existsb (name_is (name u)) (users w)
        then (Throw (DuplicateKey "name"), w)
        else (Ok tt,
              {| users := users w ++ [u];
                 refreshTokens := refreshTokens w;
                 nextId := nextId w; bcryptCalls := bcryptCalls w |})
  end.

(** *** RefreshToken model *)

Definition token_is (q : option Jwt.jstring) (d : RefreshToken) : bool :=
  match q with
  | Some t => Jwt.jstring_eqb (token d) t
  | None => false
  end.

(** [RefreshToken.findOne({ token: q })]. *)
Definition RefreshToken_findOne (q : option Jwt.jstring)
  : M (option RefreshToken) :=
  gets (fun w => find (token_is q) (refreshTokens w)).

Fixpoint remove_first {A} (p : A -> bool) (l : list A) : list A :=
  match l with
  | [] => []
  | x :: rest => if p x then rest else x :: remove_first p rest
  end.

(** The store without the first document whose token is [q]. *)
Definition without (q : option Jwt.jstring) (w : World) : World :=
  {| users := users w;
     refreshTokens := remove_first (token_is q) (refreshTokens w);
     nextId := nextId w; bcryptCalls := bcryptCalls w |}.

(** [RefreshToken.deleteOne({ token: q })]: the first match, if any. *)
Definition RefreshToken_deleteOne (q : option Jwt.jstring) : M unit :=
  modify (without q).

(** [new RefreshToken({ token, userId, expiresAt }).save()]; the unique
    index on [token], part of the schema modelled above, refuses a second
    document with the same string. *)
Definition RefreshToken_create (now : Z) (t : Jwt.jstring) (uid : nat)
    (expires : Z) : M unit :=
  id <- freshId ;;
  fun w =>
    if existsb (token_is (Some t)) (refreshTokens w)
    then (Throw (DuplicateKey "token"), w)
    else (Ok tt,
          {| users := users w;
             refreshTokens :=
               refreshTokens w ++
               [{| rt_id := id; token := t; userId := uid;
                   expiresAt := expires; rt_createdAt := now |}];
             nextId := nextId w; bcryptCalls := bcryptCalls w |}).

(** [RefreshTokenStore.exists(token)]. *)
Definition token_exists (t : Jwt.jstring) (w : World) : bool :=
  existsb (token_is (Some t)) (refreshTokens w).

End Db.

(* ================================================================== *)
(** ** Requests and responses *)

Module Http.

(** [process.env]. *)
Record Env : Type := mkEnv {
  ACCESS_TOKEN_SECRET : string;
  REFRESH_TOKEN_SECRET : string
}.

(** What the runtime hands to one request: the clock and the salt that
    bcrypt would draw. *)
Record Sys : Type := mkSys {
  now : Z;
  salt : string
}.

(** [req.body.*] and [req.headers['authorization']]. *)
Record Request : Type := mkRequest {
  body_name : option Js.str;
  body_password : option Js.str;
  body_isAdmin : option bool;
  body_token : option Jwt.jstring;
  authorization : option Jwt.jstring
}.

(** The same request with another [isAdmin] in its body. *)
Definition with_isAdmin (a : option bool) (req : Request) : Request :=
  {| body_name := body_name req; body_password := body_password req;
     body_isAdmin := a; body_token := body_token req;
     authorization := authorization req |}.

Inductive Body : Type :=
| StatusText
| ErrorBody (error : string)
| Created (message : string) (id : nat) (name : option Js.str)
| LoggedIn (accessToken refreshToken : Jwt.jstring) (userId : nat)
    (name : option Js.str) (isAdmin : bool)
| Refreshed (accessToken : Jwt.jstring).

Record Response : Type := mkResponse {
  status : nat;
  body : Body
}.

(** [res.sendStatus(code)] and [res.status(code).json(body)]. *)
Definition sendStatus (code : nat) : Response :=
  {| status := code; body := StatusText |}.
Definition json (code : nat) (b : Body) : Response :=
  {| status := code; body := b |}.

End Http.

(* ================================================================== *)
(** ** The authentication server *)

Module Auth.
Import Db Http.
Open Scope handler_scope.

(** [/^[a-zA-Z0-9_]{3,20}$/.test(v)]. *)
Definition usernameRegex_test (v : option Js.str) : bool :=
  let cs := Js.ToString v in
  forallb Js.is_word cs && (3 <=? length cs) && (length cs <=? 20).

(** [/^(?=.*\d)(?=.*[a-z])(?=.*[A-Z]).{8,}$/.test(v)]. *)
Definition passwordRegex_test (v : option Js.str) : bool :=
  let cs := Js.ToString v in
  Js.lookahead Js.is_digit cs
  && Js.lookahead Js.is_lower cs
  && Js.lookahead Js.is_upper cs
  && forallb Js.dot cs && (8 <=? length cs).

Definition generateAccessToken (env : Env) (sys : Sys) (user : User)
  : Jwt.jstring :=
  Jwt.sign (Some (_id user)) (name user)
    (Some (Js.or_bool (user_isAdmin user) false))
    (ACCESS_TOKEN_SECRET env) (15 * 60) (now sys).

(** [POST /token]. *)
Definition post_token (env : Env) (sys : Sys) (req : Request) : M Response :=
  let refreshToken := body_token req in
  if negb (Jwt.truthy refreshToken) then ret (sendStatus 401)
  else
    try_catch
      (storedToken <- RefreshToken_findOne refreshToken ;;
       match storedToken with
       | None => ret (sendStatus 403)
       | Some _ =>
           match Jwt.verify (match refreshToken with Some t => t | None => [] end)
                   (REFRESH_TOKEN_SECRET env) (now sys) with
           | inl _ =>
               RefreshToken_deleteOne refreshToken ;;;
               ret (sendStatus 403)
           | inr decoded =>
               user <- User_findById (Jwt.userId decoded) ;;
               match user with
               | None => ret (sendStatus 404)
               | Some user =>
                   let accessToken := generateAccessToken env sys user in
                   ret (json 200 (Refreshed accessToken))
               end
           end
       end)
      (fun _ => ret (sendStatus 500)).

(** [POST /register]. *)
Definition post_register (env : Env) (sys : Sys) (req : Request)
  : M Response :=
  try_catch
    (if negb (usernameRegex_test (body_name req)) then
       ret (json 400 (ErrorBody
         "Username must be 3-20 characters (letters, numbers, underscores)"))
     else if negb (passwordRegex_test (body_password req)) then
       ret (json 400 (ErrorBody
         "Password must contain: 8+ chars, 1 uppercase, 1 lowercase, 1 number"))
     else
       existingUser <- User_findOne (body_name req) ;;
       match existingUser with
       | Some _ => ret (json 409 (ErrorBody "Username already exists"))
       | None =>
           hashedPassword <- bcrypt_hash (salt sys) (body_password req) 10 ;;
           newUser <- new_User (now sys)
             {| init_name := body_name req;
                init_password := Some hashedPassword;
                init_isAdmin := Js.or_bool (body_isAdmin req) false |} ;;
           User_save newUser ;;;
           ret (json 201
             (Created "User created successfully" (_id newUser) (name newUser)))
       end)
    (fun _ => ret (json 500 (ErrorBody "Server error during registration"))).

Definition dummy_hash : Bcrypt.Hash :=
  Bcrypt.Literal "$2b$10$dummyhashdummyhashdummyha".

(** [POST /login]. *)
Definition post_login (env : Env) (sys : Sys) (req : Request) : M Response :=
  try_catch
    (user <- User_findOne (body_name req) ;;
     match user with
     | None =>
         bcrypt_compare (Some (Js.lit "dummy")) (Some dummy_hash) ;;;
         ret (json 401 (ErrorBody "Invalid credentials"))
     | Some user =>
         validPassword <- bcrypt_compare (body_password req) (password user) ;;
         if negb validPassword then
           ret (json 401 (ErrorBody "Invalid credentials"))
         else
           let accessToken := generateAccessToken env sys user in
           let refreshToken :=
             Jwt.sign (Some (_id user)) None None
               (REFRESH_TOKEN_SECRET env) (7 * 24 * 60 * 60) (now sys) in
           RefreshToken_create (now sys) refreshToken (_id user)
             (now sys + 7 * 24 * 60 * 60 * 1000) ;;;
           ret (json 200
             (LoggedIn accessToken refreshToken (_id user) (name user)
                (Js.or_bool (user_isAdmin user) false)))
     end)
    (fun _ => ret (json 500 (ErrorBody "Server error during login"))).

(** [DELETE /logout]. *)
Definition delete_logout (env : Env) (sys : Sys) (req : Request)
  : M Response :=
  try_catch
    (RefreshToken_deleteOne (body_token req) ;;;
     ret (sendStatus 204))
    (fun _ => ret (sendStatus 500)).

(** The record that [POST /register] saves for name [n] and password
    [p], and the refresh token that [POST /login] signs for [user]. *)
Definition stored_user (sys : Sys) (id : nat) (n p : Js.str) : User :=
  {| _id := id; name := Some n;
     password := Some (Bcrypt.Hashed 10 (salt sys) p);
     createdAt := now sys |}.

Definition issued_refresh (env : Env) (sys : Sys) (user : User)
  : Jwt.jstring :=
  Jwt.sign (Some (_id user)) None None (REFRESH_TOKEN_SECRET env)
    (7 * 24 * 60 * 60) (now sys).

(** The four routes of the server. *)
Inductive Route : Type :=
| POST_token
| POST_register
| POST_login
| DELETE_logout.

Definition handle (r : Route) : Env -> Sys -> Request -> M Response :=
  match r with
  | POST_token => post_token
  | POST_register => post_register
  | POST_login => post_login
  | DELETE_logout => delete_logout
  end.

(** A run of the server over successive requests. *)
Fixpoint run (env : Env) (calls : list (Route * Sys * Request)) (w : World)
  : World :=
  match calls with
  | [] => w
  | (r, sys, req) :: rest => run env rest (snd (handle r env sys req w))
  end.

End Auth.

(* ================================================================== *)
(** ** The resource server's middleware *)

Module Api.
Import Db Http.

(** [req.user]. *)
Record ReqUser : Type := mkReqUser {
  userId : option nat;
  name : option Js.str;
  isAdmin : bool
}.

Inductive Verdict : Type :=
| Reject (res : Response)
| Next (user : ReqUser).

(** [authHeader && authHeader.split(' ')[1]]. *)
Definition bearer (authHeader : option Jwt.jstring) : option Jwt.jstring :=
  match authHeader with
  | None => None
  | Some [] => Some []
  | Some h => nth_error (Jwt.split_space h) 1
  end.

Definition authenticateToken (env : Env) (sys : Sys) (req : Request)
  : Verdict :=
  let token := bearer (authorization req) in
  if negb (Jwt.truthy token) then
    Reject (json 401 (ErrorBody "Missing authentication token"))
  else
    match Jwt.verify (match token with Some t => t | None => [] end)
            (ACCESS_TOKEN_SECRET env) (now sys) with
    | inl Jwt.TokenExpiredError =>
        Reject (json 401 (ErrorBody "Token expired"))
    | inl _ => Reject (json 403 (ErrorBody "Invalid token"))
    | inr decoded =>
        Next {| userId := Jwt.userId decoded;
                name := Jwt.name decoded;
                isAdmin := Js.or_bool (Jwt.isAdmin decoded) false |}
    end.

(** A route mounted behind the middleware:
    [app.get(path, authenticateToken, handler)]. *)
Definition protected (env : Env) (sys : Sys) (req : Request)
    (handler : ReqUser -> M Response) : M Response :=
  match authenticateToken env sys req with
  | Reject res => ret res
  | Next user => handler user
  end.

End Api.

(* ================================================================== *)
(** ** Vocabulary of the specification *)

Module Spec.
Import Db Http Auth.

(** Validation rules in the words of the specification: a username is
    3 to 20 characters drawn from letters, digits and underscore. *)
Definition letter (c : N) : Prop :=
  (65 <= c <= 90)%N \/ (97 <= c <= 122)%N.
Definition digit (c : N) : Prop := (48 <= c <= 57)%N.
Definition underscore (c : N) : Prop := c = 95%N.

Definition username_ok (s : Js.str) : Prop :=
  3 <= length s <= 20 /\
  forall c, In c s -> letter c \/ digit c \/ underscore c.

(** A password is at least 8 characters with an uppercase letter, a
    lowercase letter and a digit among them. *)
Definition password_ok (s : Js.str) : Prop :=
  8 <= length s /\
  (exists c, In c s /\ (65 <= c <= 90)%N) /\
  (exists c, In c s /\ (97 <= c <= 122)%N) /\
  (exists c, In c s /\ digit c).

(** The indexes and validators that every stored document went through:
    token strings are unique and were issued by [jwt.sign]; user names
    are unique and every user passed the schema's validators. *)
Record world_ok (w : World) : Prop := mk_world_ok {
  tokens_unique : NoDup (map token (refreshTokens w));
  tokens_signed :
    Forall (fun d => exists j, token d = [Jwt.Tok j]) (refreshTokens w);
  names_unique : NoDup (map name (users w));
  users_valid : Forall (fun u => User_validate u = None) (users w)
}.

(** The number of user records carrying a given name. *)
Definition count_named (n : Js.str) (w : World) : nat :=
  length (filter (name_is (Some n)) (users w)).


(** The signature of [t] verifies against [secret]. *)
Definition signature_verifies (t : Jwt.jstring) (secret : string) : Prop :=
  exists j, t = [Jwt.Tok j] /\ Jwt.key j = secret.

(** The expiry of [t] has passed at time [now]. *)
Definition expired (t : Jwt.jstring) (now : Z) : Prop :=
  exists j e, t = [Jwt.Tok j] /\ Jwt.exp (Jwt.payload j) = Some e /\
              (e <= Jwt.seconds now)%Z.

(** A request that does not log [t] out, and that presents [t] for
    refresh only while [t] has not expired. *)
Definition spares (t : Jwt.jstring) (call : Route * Sys * Request) : Prop :=
  match call with
  | (DELETE_logout, _, req) => body_token req <> Some t
  | (POST_token, sys, req) => body_token req = Some t -> ~ expired t (now sys)
  | _ => True
  end.

End Spec.

(* ================================================================== *)
(** ** A session used in examples *)

Module Scenario.
Import Db Http Auth.

Definition env0 : Env :=
  {| ACCESS_TOKEN_SECRET := "access-secret";
     REFRESH_TOKEN_SECRET := "refresh-secret" |}.

(** Another deployment, whose refresh secret differs. *)
Definition env1 : Env :=
  {| ACCESS_TOKEN_SECRET := "access-secret";
     REFRESH_TOKEN_SECRET := "rotated-secret" |}.

Definition at_time (ms : Z) : Sys :=
  {| now := ms; salt := "N9qo8uLOickgx2ZMRZoMye" |}.

Definition t0 : Z := 1700000000000.
Definition minute : Z := 60 * 1000.
Definition day : Z := 24 * 60 * minute.

Definition credentials (n p : string) : Request :=
  {| body_name := Some (Js.lit n); body_password := Some (Js.lit p);
     body_isAdmin := Some true; body_token := None;
     authorization := None |}.

Definition with_token (t : Jwt.jstring) : Request :=
  {| body_name := None; body_password := None; body_isAdmin := None;
     body_token := Some t; authorization := None |}.

Definition with_header (h : Jwt.jstring) : Request :=
  {| body_name := None; body_password := None; body_isAdmin := None;
     body_token := None; authorization := Some h |}.

Definition alice : Request := credentials "alice_01" "Passw0rd!".

(** The refresh and access tokens that alice's login at [t0] returns. *)
Definition alice_refresh : Jwt.jstring :=
  Jwt.sign (Some 0) None None "refresh-secret" (7 * 24 * 60 * 60) t0.
Definition alice_access : Jwt.jstring :=
  Jwt.sign (Some 0) (Some (Js.lit "alice_01")) (Some false) "access-secret"
    (15 * 60) t0.

Definition registered : World :=
  run env0 [(POST_register, at_time t0, alice)] Db.empty.

Definition logged_in : World :=
  run env0 [(POST_login, at_time t0, alice)] registered.

Definition logged_out : World :=
  run env0 [(DELETE_logout, at_time (t0 + minute), with_token alice_refresh)]
    logged_in.

End Scenario.

(* ================================================================== *)
(** ** The earlier authentication server *)

(** The second server kept in the same source file: the refresh and
    register handlers as they were before validation, rate limiting and
    the cleanup of rejected tokens were added.  Its [generateAccessToken]
    has the same text as the current one. *)
Module AuthV1.
Import Db Http.
Open Scope handler_scope.

(** [POST /token]. *)
Definition post_token (env : Env) (sys : Sys) (req : Request) : M Response :=
  let refreshToken := body_token req in
  if negb (Jwt.truthy refreshToken) then ret (sendStatus 401)
  else
    try_catch
      (storedToken <- RefreshToken_findOne refreshToken ;;
       match storedToken with
       | None => ret (sendStatus 403)
       | Some _ =>
           match Jwt.verify (match refreshToken with Some t => t | None => [] end)
                   (REFRESH_TOKEN_SECRET env) (now sys) with
           | inl _ => ret (sendStatus 403)
           | inr decoded =>
               user <- User_findById (Jwt.userId decoded) ;;
               match user with
               | None => ret (sendStatus 404)
               | Some user =>
                   let accessToken :=
                     Auth.generateAccessToken env sys user in
                   ret (json 200 (Refreshed accessToken))
               end
           end
       end)
      (fun _ => ret (sendStatus 500)).

(** [POST /register]. *)
Definition post_register (env : Env) (sys : Sys) (req : Request)
  : M Response :=
  try_catch
    (existingUser <- User_findOne (body_name req) ;;
     match existingUser with
     | Some _ => ret (json 400 (ErrorBody "Username already exists"))
     | None =>
         hashedPassword <- bcrypt_hash (salt sys) (body_password req) 10 ;;
         newUser <- new_User (now sys)
           {| init_name := body_name req;
              init_password := Some hashedPassword;
              init_isAdmin := Js.or_bool (body_isAdmin req) false |} ;;
         User_save newUser ;;;
         ret (json 201
           (Created "User created successfully" (_id newUser) (name newUser)))
     end)
    (fun _ => ret (json 500 (ErrorBody "Server error"))).

End AuthV1.

(* ================================================================== *)
(** ** Routes of the resource server *)

Module Resource.
Import Http Api.

(** A string that may be the text of an [ObjectId]: the id it spells, or
    any other string. *)
Inductive IdText : Type :=
| ObjectIdText (i : nat)
| OtherText (s : string).

Definition IdText_eqb (a b : IdText) : bool :=
  match a, b with
  | ObjectIdText i, ObjectIdText j => i =? j
  | OtherText s, OtherText t => String.eqb s t
  | _, _ => false
  end.

(** A [Note] document ([noteSchema]). *)
Record Note : Type := mkNote {
  note_id : nat;
  note_courseId : nat;
  note_userId : nat;
  title : string;
  content : string;
  tags : list string;
  note_createdAt : Z;
  note_updatedAt : Z
}.

(** A [Progress] document ([progressSchema], with its timestamps). *)
Record Chapter : Type := mkChapter {
  chapterId : string;
  completedAt : Z
}.

Record Progress : Type := mkProgress {
  progress_id : nat;
  progress_userId : IdText;
  progress_courseId : string;
  completedChapters : list Chapter;
  progress_createdAt : Z;
  updatedAt : Z
}.

Record Store : Type := mkStore {
  notes : list Note;
  progress : list Progress
}.

(** One entry of the answer of [GET /progress/:userId]. *)
Record Formatted : Type := mkFormatted {
  courseId : string;
  totalChaptersCompleted : nat;
  lastCompletedAt : option Z
}.

Inductive RBody : Type :=
| RError (error : string)
| RNoNotes (message : string) (courseId : nat)
| RNotes (found : list Note)
| RProgress (entries : list Formatted).

Record RResponse : Type := mkRResponse {
  rstatus : nat;
  rbody : RBody
}.

Definition rjson (code : nat) (b : RBody) : RResponse :=
  {| rstatus := code; rbody := b |}.

Inductive Thrown : Type :=
| ReferenceError (identifier : string).

(** [a !== b] for the user id of the token and a URL parameter. *)
Definition differs (a : option nat) (b : IdText) : bool :=
  match a with
  | Some i => negb (IdText_eqb (ObjectIdText i) b)
  | None => true
  end.

(** [Note.find({ courseId, userId })]. *)
Definition Note_find (course : nat) (user : option nat) (s : Store)
  : list Note :=
  filter (fun n =>
            (note_courseId n =? course) &&
            match user with
            | Some u => note_userId n =? u
            | None => false
            end)
         (notes s).

(** [GET /courses/:id/notes], behind [authenticateToken].  The parameter
    is given as [ObjectId.isValid] and [new ObjectId] read it: [None]
    when [isValid] refuses the string. *)
Definition get_course_notes (user : ReqUser) (id : option nat) (s : Store)
  : RResponse :=
  match id with
  | None => rjson 400 (RError "Invalid course ID format")
  | Some courseId =>
      let found := Note_find courseId (userId user) s in
      match found with
      | [] => rjson 404 (RNoNotes "No notes found for this course" courseId)
      | _ :: _ => rjson 200 (RNotes found)
      end
  end.

(** [.sort({ updatedAt: -1 })]. *)
Fixpoint insert_desc (p : Progress) (l : list Progress) : list Progress :=
  match l with
  | [] => [p]
  | q :: rest =>
      if (updatedAt q <? updatedAt p)%Z then p :: q :: rest
      else q :: insert_desc p rest
  end.

Definition sort_desc (l : list Progress) : list Progress :=
  fold_right insert_desc [] l.

(** [Math.max(...dates)] over a non-empty list. *)
Definition latest (cs : list Chapter) : option Z :=
  match cs with
  | [] => None
  | c :: rest =>
      Some (fold_left Z.max (map completedAt rest) (completedAt c))
  end.

Definition format (p : Progress) : Formatted :=
  {| courseId := progress_courseId p;
     totalChaptersCompleted := length (completedChapters p);
     lastCompletedAt := latest (completedChapters p) |}.

(** The body of the [try] block of [GET /progress/:userId]: after the
    authorization check the source reads the identifier [x], which no
    scope declares. *)
Definition get_progress_try (user : ReqUser) (param : IdText) (s : Store)
  : Thrown + RResponse :=
  if differs (userId user) param && negb (isAdmin user) then
    inr (rjson 403 (RError "Unauthorized access"))
  else
    match (inl (ReferenceError "x") : Thrown + unit) with
    | inl e => inl e
    | inr _ =>
        let found :=
          sort_desc
            (filter (fun p => IdText_eqb (progress_userId p) param)
                    (progress s)) in
        inr (rjson 200 (RProgress (map format found)))
    end.

(** [GET /progress/:userId], behind [authenticateToken]. *)
Definition get_progress (user : ReqUser) (param : IdText) (s : Store)
  : RResponse :=
  match get_progress_try user param s with
  | inr res => res
  | inl _ => rjson 500 (RError "Failed to fetch progress")
  end.

(** [app.get(path, authenticateToken, handler)]: the answer of the
    middleware, or that of the handler it lets through. *)
Definition route (env : Env) (sys : Sys) (req : Request)
    (handler : ReqUser -> RResponse) : Response + RResponse :=
  match authenticateToken env sys req with
  | Reject res => inl res
  | Next user => inr (handler user)
  end.

End Resource.

(* ================================================================== *)
(** ** A store of the resource server used in examples *)

Module Shelf.
Import Resource.

Definition note (id course user : nat) (t : string) : Note :=
  {| note_id := id; note_courseId := course; note_userId := user;
     title := t; content := "Flexbox makes responsive layouts easier";
     tags := ["css"]; note_createdAt := 1700000000000;
     note_updatedAt := 1700000000000 |}.

Definition shelf : Store :=
  {| notes := [note 1 7 0 "CSS Flexbox"; note 2 7 1 "HTML Structure";
               note 3 8 0 "DOM Manipulation"];
     progress :=
       [{| progress_id := 4; progress_userId := ObjectIdText 0;
           progress_courseId := "7";
           completedChapters :=
             [{| chapterId := "html-basics"; completedAt := 1700000000000 |}];
           progress_createdAt := 1700000000000;
           updatedAt := 1700000000000 |}] |}.

End Shelf.

(* ================================================================== *)
(** ** Further vocabulary *)

Module Terms.
Import Db Http Auth.

(** Ids come from the counter: no two users share one, and every id in
    use, by a user or in the claims of a stored token, lies below the
    next one to be drawn. *)
Definition ids_ok (w : World) : Prop :=
  NoDup (map _id (users w)) /\
  Forall (fun u => _id u < nextId w) (users w) /\
  Forall (fun d => exists j i, token d = [Jwt.Tok j] /\
                               Jwt.userId (Jwt.payload j) = Some i /\
                               i < nextId w)
         (refreshTokens w).


(** A string with no space in it. *)
Definition spaceless (s : Jwt.jstring) : Prop :=
  Forall (fun c => c <> Jwt.Chr " "%char) s.

(** The header [scheme token]. *)
Definition header (scheme t : Jwt.jstring) : Jwt.jstring :=
  scheme ++ Jwt.Chr " "%char :: t.

(** A request carrying the header [Bearer t]. *)
Definition bearing (t : Jwt.jstring) (req : Request) : Prop :=
  authorization req = Some (header (Jwt.lit "Bearer") t).

(** A character that ends a line. *)
Definition line_break (c : N) : Prop :=
  c = 10%N \/ c = 13%N \/ c = 8232%N \/ c = 8233%N.

End Terms.

(* ================================================================== *)
(** ** Equality tests *)

Module EqFacts.

Lemma option_eqb_eq {A} (eqb : A -> A -> bool) :
  (forall a b, eqb a b = true <-> a = b) ->
  forall x y, Jwt.option_eqb eqb x y = true <-> x = y.
Proof.
  intros H [a|] [b|]; simpl; try (split; congruence).
  rewrite H. split; congruence.
Qed.

Lemma str_eqb_eq s : forall t, Js.str_eqb s t = true <-> s = t.
Proof.
  induction s as [|a s IH]; intros [|b t]; simpl; try (split; congruence).
  rewrite andb_true_iff, N.eqb_eq, IH. split.
  - intros [-> ->]. reflexivity.
  - intros E; injection E as -> ->. split; reflexivity.
Qed.

Lemma str_eqb_refl s : Js.str_eqb s s = true.
Proof. apply str_eqb_eq. reflexivity. Qed.

Lemma bool_eqb_eq (a b : bool) : Bool.eqb a b = true <-> a = b.
Proof. destruct a, b; simpl; split; congruence. Qed.

Lemma claims_eqb_eq a b : Jwt.claims_eqb a b = true <-> a = b.
Proof.
  unfold Jwt.claims_eqb. rewrite !andb_true_iff.
  rewrite (option_eqb_eq Nat.eqb Nat.eqb_eq).
  rewrite (option_eqb_eq Js.str_eqb str_eqb_eq).
  rewrite (option_eqb_eq Bool.eqb bool_eqb_eq).
  rewrite (option_eqb_eq Z.eqb Z.eqb_eq), Z.eqb_eq.
  destruct a, b; simpl; split.
  - intros [[[[-> ->] ->] ->] ->]. reflexivity.
  - intros E; injection E as -> -> -> -> ->. repeat split.
Qed.

Lemma token_eqb_eq a b : Jwt.token_eqb a b = true <-> a = b.
Proof.
  unfold Jwt.token_eqb.
  rewrite andb_true_iff, claims_eqb_eq, String.eqb_eq.
  destruct a, b; simpl; split.
  - intros [-> ->]. reflexivity.
  - intros E; injection E as -> ->. split; reflexivity.
Qed.

Lemma symbol_eqb_eq a b : Jwt.symbol_eqb a b = true <-> a = b.
Proof.
  destruct a as [c|s], b as [d|t]; simpl; try (split; congruence).
  - rewrite Ascii.eqb_eq. split; congruence.
  - rewrite token_eqb_eq. split; congruence.
Qed.

Lemma jstring_eqb_eq s : forall t, Jwt.jstring_eqb s t = true <-> s = t.
Proof.
  induction s as [|a s IH]; intros [|b t]; simpl; try (split; congruence).
  rewrite andb_true_iff, symbol_eqb_eq, IH. split.
  - intros [-> ->]. reflexivity.
  - intros E; injection E as -> ->. split; reflexivity.
Qed.

Lemma jstring_eqb_refl s : Jwt.jstring_eqb s s = true.
Proof. apply jstring_eqb_eq. reflexivity. Qed.

Lemma token_is_eq t d : Db.token_is (Some t) d = true <-> Db.token d = t.
Proof. unfold Db.token_is. apply jstring_eqb_eq. Qed.

Lemma name_is_eq q u : Db.name_is q u = true <-> Db.name u = q.
Proof. unfold Db.name_is. apply option_eqb_eq, str_eqb_eq. Qed.

End EqFacts.

(* ================================================================== *)
(** ** The collections *)

Module DbFacts.
Import Db Spec EqFacts.

Lemma find_none_existsb {A} (p : A -> bool) l :
  find p l = None <-> existsb p l = false.
Proof.
  induction l as [|x l IH]; simpl; [tauto|].
  destruct (p x); simpl; [split; discriminate | exact IH].
Qed.

Lemma find_some_existsb {A} (p : A -> bool) l x :
  find p l = Some x -> existsb p l = true.
Proof.
  intros H. destruct (existsb p l) eqn:E; [reflexivity|].
  apply find_none_existsb in E. congruence.
Qed.

Lemma existsb_find {A} (p : A -> bool) l :
  existsb p l = true -> exists x, find p l = Some x /\ p x = true.
Proof.
  intros H. destruct (find p l) as [x|] eqn:E.
  - exists x. split; [reflexivity|]. apply find_some in E. tauto.
  - apply find_none_existsb in E. congruence.
Qed.

Lemma remove_first_incl {A} (p : A -> bool) l x :
  In x (remove_first p l) -> In x l.
Proof.
  induction l as [|y l IH]; simpl; [tauto|].
  destruct (p y); simpl; intuition.
Qed.

Lemma remove_first_absent {A} (p : A -> bool) l :
  existsb p l = false -> remove_first p l = l.
Proof.
  induction l as [|y l IH]; simpl; [reflexivity|].
  destruct (p y); simpl; [discriminate|]. intros H. now rewrite IH.
Qed.

Lemma remove_first_NoDup {A B} (f : A -> B) (p : A -> bool) l :
  NoDup (map f l) -> NoDup (map f (remove_first p l)).
Proof.
  induction l as [|y l IH]; simpl; intros H; [constructor|].
  inversion H as [|? ? Hn Hd]; subst.
  destruct (p y); simpl; [assumption|].
  constructor; [|auto].
  intros Hin. apply Hn. apply in_map_iff in Hin as (z & Hz & Hin).
  apply in_map_iff. exists z. split; [assumption|].
  eapply remove_first_incl; eassumption.
Qed.

Lemma remove_first_Forall {A} (P : A -> Prop) (p : A -> bool) l :
  Forall P l -> Forall P (remove_first p l).
Proof.
  intros H. apply Forall_forall. intros x Hx.
  eapply Forall_forall in H; [eassumption|].
  eapply remove_first_incl; eassumption.
Qed.

(** With a unique index on the token, deleting one match deletes the
    token. *)
Lemma remove_first_token t l :
  NoDup (map token l) ->
  existsb (token_is (Some t)) (remove_first (token_is (Some t)) l) = false.
Proof.
  induction l as [|d l IH]; cbn [remove_first existsb map]; intros H;
    [reflexivity|].
  inversion H as [|? ? Hn Hd]; subst.
  destruct (token_is (Some t) d) eqn:E; cbn [existsb].
  - apply token_is_eq in E. subst t.
    destruct (existsb (token_is (Some (token d))) l) eqn:Ex; [|reflexivity].
    exfalso. apply Hn. apply existsb_exists in Ex as (d' & Hin & Hd').
    apply token_is_eq in Hd'. rewrite <- Hd'. now apply in_map.
  - rewrite E. cbn [orb]. auto.
Qed.

Lemma remove_first_other q t l :
  q <> Some t ->
  existsb (token_is (Some t)) (remove_first (token_is q) l) =
  existsb (token_is (Some t)) l.
Proof.
  intros Hq. induction l as [|d l IH]; cbn [remove_first existsb];
    [reflexivity|].
  destruct (token_is q d) eqn:E; cbn [existsb]; [|now rewrite IH].
  destruct (token_is (Some t) d) eqn:E'; [|reflexivity].
  exfalso. apply Hq. destruct q as [t'|]; [|discriminate E].
  apply token_is_eq in E, E'. congruence.
Qed.

Lemma find_app_some {A} (p : A -> bool) l l' x :
  find p l = Some x -> find p (l ++ l') = Some x.
Proof.
  induction l as [|y l IH]; simpl; [discriminate|].
  destruct (p y); auto.
Qed.

Lemma existsb_token_in t l :
  existsb (token_is (Some t)) l = true <-> In t (map token l).
Proof.
  rewrite existsb_exists, in_map_iff. split.
  - intros (d & Hin & Hd). apply token_is_eq in Hd. eauto.
  - intros (d & Hd & Hin). exists d. split; [assumption|].
    now apply token_is_eq.
Qed.

Lemma existsb_name_in q l :
  existsb (name_is q) l = true <-> In q (map name l).
Proof.
  rewrite existsb_exists, in_map_iff. split.
  - intros (u & Hin & Hu). apply name_is_eq in Hu. eauto.
  - intros (u & Hu & Hin). exists u. split; [assumption|].
    now apply name_is_eq.
Qed.

Lemma NoDup_snoc {A} (l : list A) x :
  NoDup l -> ~ In x l -> NoDup (l ++ [x]).
Proof.
  intros Hl Hx. apply NoDup_app; [assumption|repeat constructor; auto|].
  intros y Hy [<-|[]]. tauto.
Qed.

Lemma empty_ok : world_ok Db.empty.
Proof. constructor; simpl; constructor. Qed.

End DbFacts.

(* ================================================================== *)
(** ** Verification of tokens *)

Module JwtFacts.
Import Spec.

Lemma verify_bad_signature t secret now :
  ~ signature_verifies t secret ->
  Jwt.verify t secret now = inl Jwt.JsonWebTokenError.
Proof.
  intros H. unfold Jwt.verify.
  destruct t as [|[c|j] [|? ?]]; try reflexivity.
  destruct (String.eqb (Jwt.key j) secret) eqn:E; [|reflexivity].
  exfalso. apply H. exists j. split; [reflexivity|].
  now apply String.eqb_eq.
Qed.

Lemma verify_expired t secret now :
  signature_verifies t secret -> expired t now ->
  Jwt.verify t secret now = inl Jwt.TokenExpiredError.
Proof.
  intros (j & -> & Hk) (j' & e & Hj & He & Hle).
  injection Hj as <-. unfold Jwt.verify.
  apply String.eqb_eq in Hk. rewrite Hk, He.
  apply Z.leb_le in Hle. rewrite Hle. reflexivity.
Qed.

Lemma verify_valid t secret now :
  signature_verifies t secret -> ~ expired t now ->
  exists c, Jwt.verify t secret now = inr c /\ Jwt.decode t = Some c.
Proof.
  intros (j & -> & Hk) Hne. exists (Jwt.payload j).
  split; [|reflexivity]. unfold Jwt.verify.
  apply String.eqb_eq in Hk. rewrite Hk.
  destruct (Jwt.exp (Jwt.payload j)) as [e|] eqn:He; [|reflexivity].
  destruct (e <=? Jwt.seconds now)%Z eqn:Hle; [|reflexivity].
  exfalso. apply Hne. exists j, e. apply Z.leb_le in Hle. auto.
Qed.

Lemma verify_error_cases t secret now e :
  Jwt.verify t secret now = inl e ->
  (e = Jwt.JsonWebTokenError /\ ~ signature_verifies t secret) \/
  (e = Jwt.TokenExpiredError /\ signature_verifies t secret /\ expired t now).
Proof.
  unfold Jwt.verify. intros H.
  destruct t as [|[c|j] [|? ?]];
    try (left; split; [congruence|]; intros (j' & Hj & _); discriminate).
  destruct (String.eqb (Jwt.key j) secret) eqn:E.
  - apply String.eqb_eq in E.
    destruct (Jwt.exp (Jwt.payload j)) as [x|] eqn:Hx; [|discriminate].
    destruct (x <=? Jwt.seconds now)%Z eqn:Hle; [|discriminate].
    right. apply Z.leb_le in Hle. injection H as <-.
    split; [reflexivity|]. split; [exists j; auto | exists j, x; auto].
  - left. split; [congruence|]. intros (j' & Hj & Hk).
    injection Hj as <-. apply String.eqb_neq in E. contradiction.
Qed.

Lemma verify_decode t secret now c :
  Jwt.verify t secret now = inr c -> Jwt.decode t = Some c.
Proof.
  unfold Jwt.verify, Jwt.decode.
  destruct t as [|[a|j] [|? ?]]; try discriminate.
  destruct (String.eqb (Jwt.key j) secret); [|discriminate].
  destruct (Jwt.exp (Jwt.payload j)) as [x|]; [|congruence].
  destruct (x <=? Jwt.seconds now)%Z; congruence.
Qed.

End JwtFacts.

(* ================================================================== *)
(** ** The validators of the register operation *)

Module RegexFacts.
Import Auth Spec.

Lemma in_range_iff lo hi c :
  Js.in_range lo hi c = true <-> (lo <= c <= hi)%N.
Proof.
  unfold Js.in_range. rewrite andb_true_iff, !N.leb_le. tauto.
Qed.

Lemma underscore_iff c : (c =? 95)%N = true <-> underscore c.
Proof. unfold underscore. apply N.eqb_eq. Qed.

Lemma is_word_iff c : Js.is_word c = true <-> letter c \/ digit c \/ underscore c.
Proof.
  unfold Js.is_word, Js.is_lower, Js.is_upper, Js.is_digit, letter, digit.
  rewrite !orb_true_iff, !in_range_iff, underscore_iff. tauto.
Qed.

(** The username test is the rule of the specification, applied to the
    field as a string. *)
Lemma usernameRegex_iff v :
  usernameRegex_test v = true <-> username_ok (Js.ToString v).
Proof.
  unfold usernameRegex_test, username_ok.
  rewrite !andb_true_iff, forallb_forall, !Nat.leb_le.
  split.
  - intros [[Hw H3] H20]. split; [lia|].
    intros c Hc. apply is_word_iff. auto.
  - intros [[H3 H20] Hw]. repeat split; try assumption.
    intros c Hc. apply is_word_iff. auto.
Qed.

Lemma lookahead_exists cls cs :
  Js.lookahead cls cs = true -> exists c, In c cs /\ cls c = true.
Proof.
  induction cs as [|c cs IH]; simpl; [discriminate|].
  rewrite orb_true_iff, andb_true_iff. intros [H|[_ H]].
  - exists c. auto.
  - destruct (IH H) as (d & Hd & Hc). exists d. auto.
Qed.

Lemma lookahead_dots cls cs :
  forallb Js.dot cs = true ->
  (Js.lookahead cls cs = true <-> exists c, In c cs /\ cls c = true).
Proof.
  intros Hd. split; [apply lookahead_exists|].
  induction cs as [|c cs IH]; simpl in *; intros (d & Hin & Hc); [tauto|].
  apply andb_true_iff in Hd as [Hdc Hd]. rewrite Hdc.
  destruct Hin as [->|Hin]; [now rewrite Hc|].
  rewrite IH by eauto. apply orb_true_r.
Qed.

(** A password that passes the test meets the rule of the
    specification.  (The test also refuses a line break, which [.]
    does not match.) *)
Lemma passwordRegex_sound v :
  passwordRegex_test v = true -> password_ok (Js.ToString v).
Proof.
  unfold passwordRegex_test, password_ok.
  rewrite !andb_true_iff, Nat.leb_le.
  intros [[[[Hd Hl] Hu] _] H8]. split; [assumption|].
  apply lookahead_exists in Hd as (d & Hdin & Hd).
  apply lookahead_exists in Hl as (l & Hlin & Hl).
  apply lookahead_exists in Hu as (u & Huin & Hu).
  unfold Js.is_digit, Js.is_lower, Js.is_upper in *.
  rewrite in_range_iff in Hd, Hl, Hu. unfold digit.
  split; [exists u; auto|]. split; [exists l; auto | exists d; auto].
Qed.

Lemma passwordRegex_complete v :
  password_ok (Js.ToString v) ->
  forallb Js.dot (Js.ToString v) = true ->
  passwordRegex_test v = true.
Proof.
  unfold passwordRegex_test, password_ok.
  intros (H8 & (u & Huin & Hu) & (l & Hlin & Hl) & (d & Hdin & Hd)) Hdot.
  rewrite !andb_true_iff, Nat.leb_le.
  repeat split; try assumption;
    apply lookahead_dots; try assumption;
    [exists d | exists l | exists u]; split; try assumption;
    apply in_range_iff; assumption.
Qed.

End RegexFacts.

(* ================================================================== *)
(** ** What every handler does to the collections *)

Module Invariants.
Import Db Http Auth Spec EqFacts DbFacts.

Ltac unfold_handlers :=
  cbv beta iota zeta delta
    [handle post_token post_register post_login delete_logout
     try_catch bind ret throw gets modify record_call freshId
     bcrypt_hash bcrypt_compare new_User User_save without
     RefreshToken_findOne RefreshToken_deleteOne RefreshToken_create
     User_findById User_findOne].

Ltac split_cases :=
  repeat match goal with
         | |- context [match ?x with _ => _ end] =>
             lazymatch x with
             | context [match _ with _ => _ end] => fail
             | _ => destruct x eqn:?
             end
         end.

(** Users are only ever appended, one at a time, after validation and
    with a name no stored user has. *)
Lemma handle_users r env sys req w :
  let w' := snd (handle r env sys req w) in
  users w' = users w \/
  exists u, users w' = users w ++ [u] /\
            existsb (name_is (name u)) (users w) = false /\
            User_validate u = None.
Proof.
  destruct r; unfold_handlers; split_cases;
    cbn [snd users]; auto.
  right. eexists. split; [reflexivity|]. cbn [name]. split; assumption.
Qed.

(** Refresh tokens are deleted by string, or appended, one at a time,
    as issued by [jwt.sign] and with a string no stored row has. *)
Lemma handle_tokens r env sys req w :
  let w' := snd (handle r env sys req w) in
  refreshTokens w' = refreshTokens w \/
  ((r = POST_token \/ r = DELETE_logout) /\
   refreshTokens w' =
     remove_first (token_is (body_token req)) (refreshTokens w)) \/
  exists d, refreshTokens w' = refreshTokens w ++ [d] /\
            existsb (token_is (Some (token d))) (refreshTokens w) = false /\
            exists j, token d = [Jwt.Tok j].
Proof.
  destruct r; unfold_handlers; split_cases;
    cbn [snd refreshTokens]; auto;
    try solve [right; left; split; [auto | reflexivity]].
  right. right. eexists. split; [reflexivity|]. cbn [token].
  split; [assumption|]. eexists. reflexivity.
Qed.

Theorem handle_ok r env sys req w :
  world_ok w -> world_ok (snd (handle r env sys req w)).
Proof.
  intros [Htu Hts Hnu Huv].
  pose proof (handle_users r env sys req w) as Hu.
  pose proof (handle_tokens r env sys req w) as Ht.
  cbv zeta in Hu, Ht. constructor.
  - destruct Ht as [->|[[_ ->]|(d & -> & Hd & _)]].
    + assumption.
    + now apply remove_first_NoDup.
    + rewrite map_app. apply NoDup_snoc; [assumption|].
      cbn [map]. intros Hin. apply existsb_token_in in Hin. congruence.
  - destruct Ht as [->|[[_ ->]|(d & -> & _ & Hj)]].
    + assumption.
    + now apply remove_first_Forall.
    + apply Forall_app. split; [assumption|]. constructor; auto.
  - destruct Hu as [->|(u & -> & Hn & _)]; [assumption|].
    rewrite map_app. apply NoDup_snoc; [assumption|].
    cbn [map]. intros Hin. apply existsb_name_in in Hin. congruence.
  - destruct Hu as [->|(u & -> & _ & Hv)]; [assumption|].
    apply Forall_app. split; [assumption|]. constructor; auto.
Qed.

Theorem run_ok env calls : forall w, world_ok w -> world_ok (run env calls w).
Proof.
  induction calls as [|[[r sys] req] calls IH]; intros w Hw; simpl;
    [assumption|].
  apply IH, handle_ok, Hw.
Qed.

(** Once a name is registered, it stays registered, by exactly as many
    records. *)
Lemma handle_count r env sys req w n :
  1 <= count_named n w ->
  count_named n (snd (handle r env sys req w)) = count_named n w.
Proof.
  intros H. unfold count_named in *.
  destruct (handle_users r env sys req w) as [->|(u & -> & Hn & _)];
    [reflexivity|].
  rewrite filter_app, length_app. cbn [filter].
  destruct (name_is (Some n) u) eqn:E; [|simpl; lia].
  exfalso. apply name_is_eq in E. rewrite E in Hn.
  destruct (filter (name_is (Some n)) (users w)) as [|x l] eqn:F;
    [simpl in H; lia|].
  assert (Hx : In x (filter (name_is (Some n)) (users w)))
    by (rewrite F; left; reflexivity).
  apply filter_In in Hx as [Hin Hx].
  assert (existsb (name_is (Some n)) (users w) = true)
    by (apply existsb_exists; eauto).
  congruence.
Qed.

Lemma run_count env calls n :
  forall w, 1 <= count_named n w ->
            count_named n (run env calls w) = count_named n w.
Proof.
  induction calls as [|[[r sys] req] calls IH]; intros w Hw; simpl;
    [reflexivity|].
  rewrite IH; rewrite handle_count; auto.
Qed.

Lemma count_find n w :
  1 <= count_named n w ->
  exists u, find (name_is (Some n)) (users w) = Some u.
Proof.
  unfold count_named. intros H.
  destruct (filter (name_is (Some n)) (users w)) as [|x l] eqn:F;
    [simpl in H; lia|].
  assert (Hx : In x (filter (name_is (Some n)) (users w)))
    by (rewrite F; left; reflexivity).
  apply filter_In in Hx as [Hin Hx].
  destruct (find (name_is (Some n)) (users w)) as [u|] eqn:E; [eauto|].
  eapply find_none in E; [|eassumption]. congruence.
Qed.

Lemma handle_keeps_user r env sys req w i u :
  find (fun x => _id x =? i) (users w) = Some u ->
  find (fun x => _id x =? i) (users (snd (handle r env sys req w))) = Some u.
Proof.
  intros Hf.
  destruct (handle_users r env sys req w) as [->|(x & -> & _)];
    [assumption | now apply find_app_some].
Qed.

End Invariants.

(* ================================================================== *)
(** ** The refresh and logout operations against the specification *)

Module RefreshSpec.
Import Db Http Auth Spec EqFacts DbFacts JwtFacts Invariants Scenario.

Ltac unfold_monad :=
  cbv beta iota zeta delta
    [try_catch bind ret throw gets modify record_call freshId
     RefreshToken_findOne RefreshToken_deleteOne User_findById
     User_findOne].

Lemma verify_signed t secret now r :
  Jwt.verify t secret now = r ->
  (exists c, r = inr c) \/ r = inl Jwt.TokenExpiredError ->
  exists j, t = [Jwt.Tok j] /\ Jwt.key j = secret.
Proof.
  unfold Jwt.verify. intros H Hr.
  destruct t as [|[c|j] [|? ?]];
    try (subst r; destruct Hr as [[c' Hc]|Hc]; discriminate).
  destruct (String.eqb (Jwt.key j) secret) eqn:E.
  - apply String.eqb_eq in E. eauto.
  - subst r; destruct Hr as [[c' Hc]|Hc]; discriminate.
Qed.

Lemma stored_truthy w t :
  world_ok w -> token_exists t w = true -> Jwt.truthy (Some t) = true.
Proof.
  intros Hok Hex. apply existsb_exists in Hex as (d & Hin & Hd).
  apply token_is_eq in Hd. subst t.
  pose proof (tokens_signed w Hok) as Hs.
  rewrite Forall_forall in Hs. destruct (Hs d Hin) as [j ->]. reflexivity.
Qed.

Lemma post_token_missing env sys req w :
  Jwt.truthy (body_token req) = false ->
  post_token env sys req w = (Ok (sendStatus 401), w).
Proof. intros H. unfold post_token. rewrite H. reflexivity. Qed.

Lemma post_token_unknown env sys req w t :
  body_token req = Some t -> t <> [] ->
  token_exists t w = false ->
  post_token env sys req w = (Ok (sendStatus 403), w).
Proof.
  intros Hb Ht Hex. unfold post_token. rewrite Hb.
  destruct t as [|a t]; [congruence|]. cbn [Jwt.truthy negb].
  unfold_monad. apply find_none_existsb in Hex. rewrite Hex. reflexivity.
Qed.

Lemma post_token_rejected env sys req w t e :
  body_token req = Some t -> t <> [] ->
  token_exists t w = true ->
  Jwt.verify t (REFRESH_TOKEN_SECRET env) (now sys) = inl e ->
  post_token env sys req w = (Ok (sendStatus 403), without (Some t) w).
Proof.
  intros Hb Ht Hex Hv. unfold post_token. rewrite Hb.
  destruct t as [|a t]; [congruence|]. cbn [Jwt.truthy negb].
  unfold_monad. apply existsb_find in Hex as (d & Hd & _). rewrite Hd.
  rewrite Hv. reflexivity.
Qed.

Lemma post_token_verified env sys req w t c :
  body_token req = Some t ->
  token_exists t w = true ->
  Jwt.verify t (REFRESH_TOKEN_SECRET env) (now sys) = inr c ->
  post_token env sys req w =
    match User_findById (Jwt.userId c) w with
    | (Ok (Some u), _) =>
        (Ok (json 200 (Refreshed (generateAccessToken env sys u))), w)
    | _ => (Ok (sendStatus 404), w)
    end.
Proof.
  intros Hb Hex Hv. unfold post_token. rewrite Hb.
  destruct (verify_signed _ _ _ _ Hv) as (j & -> & _); [eauto|].
  cbn [Jwt.truthy negb].
  unfold_monad. apply existsb_find in Hex as (d & Hd & _). rewrite Hd.
  rewrite Hv.
  destruct (match Jwt.userId c with
            | Some i => find (fun u => _id u =? i) (users w)
            | None => None
            end); reflexivity.
Qed.

(** A refresh with a stored token that verifies writes nothing. *)
Lemma post_token_verified_world env sys req w t c :
  body_token req = Some t ->
  token_exists t w = true ->
  Jwt.verify t (REFRESH_TOKEN_SECRET env) (now sys) = inr c ->
  snd (post_token env sys req w) = w.
Proof.
  intros Hb Hex Hv. rewrite (post_token_verified env sys req w t c Hb Hex Hv).
  destruct (User_findById (Jwt.userId c) w) as [[[u|]|e] w0]; reflexivity.
Qed.

(** A stored token stays stored while no request logs it out and none
    presents it for refresh after its expiry. *)
Lemma handle_keeps_token r env sys req w t :
  signature_verifies t (REFRESH_TOKEN_SECRET env) ->
  spares t (r, sys, req) ->
  token_exists t w = true ->
  token_exists t (snd (handle r env sys req w)) = true.
Proof.
  intros Hsig Hs Hex.
  assert (Hother : body_token req <> Some t ->
                   token_exists t (snd (handle r env sys req w)) = true).
  { intros Hne. unfold token_exists in *.
    destruct (handle_tokens r env sys req w) as [->|[[Hr ->]|(d & -> & _)]].
    - assumption.
    - rewrite remove_first_other; assumption.
    - rewrite existsb_app, Hex. reflexivity. }
  destruct r; cbn [spares] in Hs; try (apply Hother; exact Hs).
  - destruct (body_token req) as [t'|] eqn:Hb; [|apply Hother; discriminate].
    destruct (Jwt.jstring_eqb t' t) eqn:E.
    + apply jstring_eqb_eq in E. subst t'.
      destruct (verify_valid t (REFRESH_TOKEN_SECRET env) (now sys) Hsig
                  (Hs eq_refl)) as (c & Hv & _).
      cbn [handle].
      rewrite (post_token_verified_world env sys req w t c Hb Hex Hv).
      exact Hex.
    + apply Hother. intros H. injection H as ->.
      rewrite jstring_eqb_refl in E. discriminate.
  - destruct (handle_tokens POST_register env sys req w)
      as [H|[[[Hr|Hr] _]|(d & H & _)]]; try discriminate Hr;
      unfold token_exists; rewrite H; [assumption|].
    rewrite existsb_app. unfold token_exists in Hex. rewrite Hex. reflexivity.
  - destruct (handle_tokens POST_login env sys req w)
      as [H|[[[Hr|Hr] _]|(d & H & _)]]; try discriminate Hr;
      unfold token_exists; rewrite H; [assumption|].
    rewrite existsb_app. unfold token_exists in Hex. rewrite Hex. reflexivity.
Qed.

Lemma run_keeps env calls t i u :
  signature_verifies t (REFRESH_TOKEN_SECRET env) ->
  forall w,
    Forall (spares t) calls ->
    token_exists t w = true ->
    find (fun x => _id x =? i) (users w) = Some u ->
    token_exists t (run env calls w) = true /\
    find (fun x => _id x =? i) (users (run env calls w)) = Some u.
Proof.
  intros Hsig.
  induction calls as [|[[r sys] req] calls IH]; intros w Hs Hex Hf; simpl;
    [split; assumption|].
  inversion Hs as [|? ? Hc Hcs]; subst.
  apply IH; [assumption | now apply handle_keeps_token
                        | now apply handle_keeps_user].
Qed.

Lemma without_exists w t :
  NoDup (map token (refreshTokens w)) ->
  token_exists t (without (Some t) w) = false.
Proof. intros H. apply remove_first_token. assumption. Qed.

Lemma without_absent w t :
  token_exists t w = false -> without (Some t) w = w.
Proof.
  intros H. unfold without. rewrite remove_first_absent by exact H.
  destruct w; reflexivity.
Qed.

Lemma delete_logout_eq env sys req w :
  delete_logout env sys req w =
    (Ok (sendStatus 204), without (body_token req) w).
Proof. reflexivity. Qed.

(** C1.  For the refresh operation: a request whose body carries no
    token string is answered 401; a valid refresh token, one that is in
    the store and verifies against the refresh secret, is answered 404
    when no user has the id in its claims, and otherwise 200 with a
    body that holds exactly a new access token.  Nothing is written, so
    the refresh token is not rotated; and after any further requests,
    as long as none logs the token out and none presents it after its
    expiry, the same request, made while the token has not expired, is
    answered 200 again. *)
Theorem refresh_outcomes env sys req w :
  (Jwt.truthy (body_token req) = false ->
   post_token env sys req w = (Ok (sendStatus 401), w)) /\
  (forall t c,
     body_token req = Some t ->
     token_exists t w = true ->
     Jwt.verify t (REFRESH_TOKEN_SECRET env) (now sys) = inr c ->
     (fst (User_findById (Jwt.userId c) w) = Ok None ->
      post_token env sys req w = (Ok (sendStatus 404), w)) /\
     (forall u,
        fst (User_findById (Jwt.userId c) w) = Ok (Some u) ->
        post_token env sys req w =
          (Ok (json 200 (Refreshed (generateAccessToken env sys u))), w) /\
        forall calls sys',
          Forall (spares t) calls ->
          ~ expired t (now sys') ->
          let later := run env calls (snd (post_token env sys req w)) in
          post_token env sys' req later =
            (Ok (json 200 (Refreshed (generateAccessToken env sys' u))),
             later))).
Proof.
  split; [apply post_token_missing|].
  intros t c Hb Hex Hv.
  pose proof (post_token_verified env sys req w t c Hb Hex Hv) as Hp.
  split.
  - intros Hu. rewrite Hp.
    destruct (User_findById (Jwt.userId c) w) as [[[u|]|e] w0];
      simpl in Hu; congruence.
  - intros u Hu.
    assert (Hnow : post_token env sys req w =
      (Ok (json 200 (Refreshed (generateAccessToken env sys u))), w)).
    { rewrite Hp.
      destruct (User_findById (Jwt.userId c) w) as [[[u'|]|e] w0];
        simpl in Hu; congruence. }
    split; [exact Hnow|].
    intros calls sys' Hsp Hne. rewrite Hnow. cbn [snd]. cbv zeta.
    destruct (verify_signed _ _ _ _ Hv) as (j & -> & Hk); [eauto|].
    destruct (verify_valid [Jwt.Tok j] (REFRESH_TOKEN_SECRET env) (now sys'))
      as (c' & Hv' & Hd'); [exists j; auto | assumption |].
    pose proof (verify_decode _ _ _ _ Hv) as Hd.
    assert (c' = c) by congruence. subst c'.
    unfold User_findById, gets in Hu. cbn [fst] in Hu.
    destruct (Jwt.userId c) as [i|] eqn:Hi; [|discriminate Hu].
    injection Hu as Hu.
    destruct (run_keeps env calls [Jwt.Tok j] i u
                (ex_intro _ j (conj eq_refl Hk)) w Hsp Hex Hu) as [Hex' Hu'].
    rewrite (post_token_verified env sys' req _ _ c Hb Hex' Hv').
    unfold User_findById, gets. rewrite Hi, Hu'. reflexivity.
Qed.

Lemma alice_refresh_fresh ms :
  (Jwt.seconds ms < 1700604800)%Z -> ~ expired alice_refresh ms.
Proof.
  intros Hlt (j & e & Hj & He & Hle). injection Hj as <-.
  injection He as <-. lia.
Qed.

Lemma refresh_outcomes_witness :
  post_token env0 (at_time t0)
    {| body_name := None; body_password := None; body_isAdmin := None;
       body_token := None; authorization := None |} logged_in
    = (Ok (sendStatus 401), logged_in) /\
  post_token env0 (at_time (t0 + minute)) (with_token alice_refresh)
    logged_in
    = (Ok (json 200 (Refreshed
         (Jwt.sign (Some 0) (Some (Js.lit "alice_01")) (Some false) "access-secret"
            (15 * 60) (t0 + minute)))), logged_in) /\
  let later :=
    run env0 [(POST_register, at_time (t0 + 2 * minute),
               credentials "bob_02" "S3cretPass");
              (POST_token, at_time (t0 + 3 * minute),
               with_token alice_refresh)]
      (snd (post_token env0 (at_time (t0 + minute))
              (with_token alice_refresh) logged_in)) in
  post_token env0 (at_time (t0 + day)) (with_token alice_refresh) later
    = (Ok (json 200 (Refreshed
         (Jwt.sign (Some 0) (Some (Js.lit "alice_01")) (Some false) "access-secret"
            (15 * 60) (t0 + day)))), later).
Proof.
  split.
  - apply (proj1 (refresh_outcomes env0 (at_time t0) _ logged_in)).
    reflexivity.
  - pose proof (proj2 (refresh_outcomes env0 (at_time (t0 + minute))
                         (with_token alice_refresh) logged_in)
                  alice_refresh
                  {| Jwt.userId := Some 0; Jwt.name := None;
                     Jwt.isAdmin := None; Jwt.iat := 1700000000;
                     Jwt.exp := Some 1700604800%Z |}
                  eq_refl eq_refl eq_refl) as [_ H].
    destruct (H (stored_user (at_time t0) 0 (Js.lit "alice_01") (Js.lit "Passw0rd!")) eq_refl)
      as [H1 H2].
    split; [exact H1|].
    apply (H2 [(POST_register, at_time (t0 + 2 * minute),
                credentials "bob_02" "S3cretPass");
               (POST_token, at_time (t0 + 3 * minute),
                with_token alice_refresh)] (at_time (t0 + day))).
    + constructor; [exact I|]. constructor; [|constructor].
      intros _. apply alice_refresh_fresh. reflexivity.
    + apply alice_refresh_fresh. reflexivity.
Defined.

(** Any failure of verification removes the stored row and answers
    403. *)
Lemma refresh_rejected env sys req w t e :
  world_ok w ->
  body_token req = Some t ->
  token_exists t w = true ->
  Jwt.verify t (REFRESH_TOKEN_SECRET env) (now sys) = inl e ->
  post_token env sys req w = (Ok (sendStatus 403), without (Some t) w) /\
  token_exists t (without (Some t) w) = false.
Proof.
  intros Hok Hb Hex Hv. split.
  - apply post_token_rejected with (e := e); try assumption.
    pose proof (stored_truthy w t Hok Hex) as Ht.
    destruct t; [discriminate | congruence].
  - apply without_exists, Hok.
Qed.

(** C2.  A refresh request whose token string is in the store but whose
    signature does not verify against the refresh secret is answered
    403, and the stored record for that string is deleted: afterwards
    [exists(token)] is false. *)
Theorem refresh_bad_signature env sys req w t :
  world_ok w ->
  body_token req = Some t ->
  token_exists t w = true ->
  ~ signature_verifies t (REFRESH_TOKEN_SECRET env) ->
  exists w',
    post_token env sys req w = (Ok (sendStatus 403), w') /\
    token_exists t w' = false /\
    users w' = users w.
Proof.
  intros Hok Hb Hex Hsig. exists (without (Some t) w).
  destruct (refresh_rejected env sys req w t Jwt.JsonWebTokenError)
    as [H1 H2]; auto using verify_bad_signature.
Qed.

Lemma logged_in_ok : world_ok logged_in.
Proof. unfold logged_in, registered. do 2 apply run_ok. apply empty_ok. Qed.

Lemma refresh_bad_signature_witness :
  exists w',
    post_token env1 (at_time (t0 + minute)) (with_token alice_refresh)
      logged_in = (Ok (sendStatus 403), w') /\
    token_exists alice_refresh w' = false /\
    users w' = users logged_in.
Proof.
  apply (refresh_bad_signature env1 (at_time (t0 + minute))
           (with_token alice_refresh) logged_in alice_refresh).
  - exact logged_in_ok.
  - reflexivity.
  - reflexivity.
  - intros (j & Hj & Hk). injection Hj as <-. vm_compute in Hk.
    discriminate.
Defined.

(** C3 as written fails: the expired token of the example session is
    answered 403, but its row does not stay in the store. *)
Lemma refresh_expired_row_not_kept :
  ~ (token_exists alice_refresh logged_in = true ->
     signature_verifies alice_refresh (REFRESH_TOKEN_SECRET env0) ->
     expired alice_refresh (t0 + 8 * day) ->
     fst (post_token env0 (at_time (t0 + 8 * day))
            (with_token alice_refresh) logged_in) = Ok (sendStatus 403) /\
     refreshTokens
       (snd (post_token env0 (at_time (t0 + 8 * day))
               (with_token alice_refresh) logged_in))
     = refreshTokens logged_in).
Proof.
  intros H. destruct H as [_ H].
  - reflexivity.
  - eexists. split; reflexivity.
  - eexists. eexists. split; [reflexivity|]. split; [reflexivity|].
    vm_compute. discriminate.
  - vm_compute in H. discriminate.
Qed.

(** C3, as amended.  A refresh request whose token string is in the
    store and whose signature is valid but whose expiry has passed is
    answered 403, and the refresh path deletes the stored row, as it
    does for every token that fails verification; users are left as
    they were. *)
Theorem refresh_expired env sys req w t :
  world_ok w ->
  body_token req = Some t ->
  token_exists t w = true ->
  signature_verifies t (REFRESH_TOKEN_SECRET env) ->
  expired t (now sys) ->
  exists w',
    post_token env sys req w = (Ok (sendStatus 403), w') /\
    token_exists t w' = false /\
    refreshTokens w' = remove_first (token_is (Some t)) (refreshTokens w) /\
    users w' = users w.
Proof.
  intros Hok Hb Hex Hsig Hexp. exists (without (Some t) w).
  destruct (refresh_rejected env sys req w t Jwt.TokenExpiredError)
    as [H1 H2]; auto using verify_expired.
Qed.

Lemma refresh_expired_witness :
  exists w',
    post_token env0 (at_time (t0 + 8 * day)) (with_token alice_refresh)
      logged_in = (Ok (sendStatus 403), w') /\
    token_exists alice_refresh w' = false /\
    refreshTokens w' =
      remove_first (token_is (Some alice_refresh)) (refreshTokens logged_in) /\
    users w' = users logged_in.
Proof.
  apply (refresh_expired env0 (at_time (t0 + 8 * day))
           (with_token alice_refresh) logged_in alice_refresh).
  - exact logged_in_ok.
  - reflexivity.
  - reflexivity.
  - eexists. split; reflexivity.
  - eexists. eexists. split; [reflexivity|]. split; [reflexivity|].
    vm_compute. discriminate.
Defined.

(** C10.  For every token string [t], logout answers 204 whether or
    not a row for [t] was stored (when none was, the store is left as it
    is); afterwards [exists(t)] is false and a refresh request carrying
    [t] is answered 403.  A token string is a non-empty string: the
    handlers read an empty one as no token at all. *)
Theorem logout_revokes env sys req w t :
  world_ok w ->
  body_token req = Some t ->
  t <> [] ->
  exists w',
    delete_logout env sys req w = (Ok (sendStatus 204), w') /\
    (token_exists t w = false -> w' = w) /\
    token_exists t w' = false /\
    forall env' sys' req',
      body_token req' = Some t ->
      post_token env' sys' req' w' = (Ok (sendStatus 403), w').
Proof.
  intros Hok Hb Ht. exists (without (Some t) w).
  rewrite delete_logout_eq, Hb.
  split; [reflexivity|]. split; [apply without_absent|].
  assert (Hgone : token_exists t (without (Some t) w) = false)
    by apply without_exists, Hok.
  split; [exact Hgone|].
  intros env' sys' req' Hb'. now apply post_token_unknown with (t := t).
Qed.

Lemma logout_revokes_witness :
  exists w',
    delete_logout env0 (at_time (t0 + minute)) (with_token alice_refresh)
      logged_in = (Ok (sendStatus 204), w') /\
    (token_exists alice_refresh logged_in = false -> w' = logged_in) /\
    token_exists alice_refresh w' = false /\
    forall env' sys' req',
      body_token req' = Some alice_refresh ->
      post_token env' sys' req' w' = (Ok (sendStatus 403), w').
Proof.
  apply (logout_revokes env0 (at_time (t0 + minute))
           (with_token alice_refresh) logged_in alice_refresh).
  - exact logged_in_ok.
  - reflexivity.
  - discriminate.
Defined.

(** The scenario of the specification: register, login, refresh, logout,
    refresh again. *)
Example session_of_the_specification :
  fst (post_register env0 (at_time t0) alice Db.empty) =
    Ok (json 201 (Created "User created successfully" 0 (Some (Js.lit "alice_01")))) /\
  fst (post_login env0 (at_time t0) alice registered) =
    Ok (json 200 (LoggedIn alice_access alice_refresh 0 (Some (Js.lit "alice_01"))
                    false)) /\
  token_exists alice_refresh logged_in = true /\
  (exists accessToken,
     fst (post_token env0 (at_time (t0 + minute)) (with_token alice_refresh)
            logged_in) = Ok (json 200 (Refreshed accessToken))) /\
  delete_logout env0 (at_time (t0 + minute)) (with_token alice_refresh)
    logged_in = (Ok (sendStatus 204), logged_out) /\
  fst (post_token env0 (at_time (t0 + 2 * minute)) (with_token alice_refresh)
         logged_out) = Ok (sendStatus 403).
Proof.
  repeat split; try reflexivity. eexists. reflexivity.
Qed.

(** Two logins of one user within the same second sign the same refresh
    token; the unique index refuses the second row. *)
Example login_twice_in_a_second :
  fst (post_login env0 (at_time (t0 + 1)) alice logged_in) =
    Ok (json 500 (ErrorBody "Server error during login")).
Proof. reflexivity. Qed.

End RefreshSpec.

(* ================================================================== *)
(** ** The register operation against the specification *)

Module RegisterSpec.
Import Db Http Auth Spec EqFacts DbFacts RegexFacts Invariants Scenario.

Ltac unfold_register :=
  cbv beta iota zeta delta
    [post_register try_catch bind ret throw gets modify record_call
     freshId bcrypt_hash new_User User_save User_findOne].

Lemma post_register_bad_name env sys req w :
  usernameRegex_test (body_name req) = false ->
  post_register env sys req w =
    (Ok (json 400 (ErrorBody
       "Username must be 3-20 characters (letters, numbers, underscores)")),
     w).
Proof. intros H. unfold_register. rewrite H. reflexivity. Qed.

Lemma post_register_bad_password env sys req w :
  usernameRegex_test (body_name req) = true ->
  passwordRegex_test (body_password req) = false ->
  post_register env sys req w =
    (Ok (json 400 (ErrorBody
       "Password must contain: 8+ chars, 1 uppercase, 1 lowercase, 1 number")),
     w).
Proof. intros Hn Hp. unfold_register. rewrite Hn, Hp. reflexivity. Qed.

Lemma post_register_duplicate env sys req w u :
  usernameRegex_test (body_name req) = true ->
  passwordRegex_test (body_password req) = true ->
  find (name_is (body_name req)) (users w) = Some u ->
  post_register env sys req w =
    (Ok (json 409 (ErrorBody "Username already exists")), w).
Proof.
  intros Hn Hp Hf. unfold_register. rewrite Hn, Hp.
  cbv beta iota delta [negb]. rewrite Hf. reflexivity.
Qed.

Lemma post_register_fresh env sys req w n :
  body_name req = Some n ->
  usernameRegex_test (Some n) = true ->
  passwordRegex_test (body_password req) = true ->
  find (name_is (Some n)) (users w) = None ->
  exists p,
    body_password req = Some p /\
    post_register env sys req w =
      (Ok (json 201 (Created "User created successfully" (nextId w) (Some n))),
       {| users := users w ++ [stored_user sys (nextId w) n p];
          refreshTokens := refreshTokens w;
          nextId := S (nextId w);
          bcryptCalls := bcryptCalls w ++ [Bcrypt.CallHash p 10] |}).
Proof.
  intros Hb Hn Hp Hf.
  destruct (body_password req) as [p|] eqn:Ep; [|discriminate Hp].
  exists p. split; [reflexivity|].
  unfold_register. rewrite Ep, Hb, Hn, Hp.
  cbv beta iota delta [negb init_name init_password]. rewrite Hf.
  cbn [users refreshTokens nextId bcryptCalls].
  apply usernameRegex_iff in Hn as [[H3 H20] _]. cbn [Js.ToString] in *.
  unfold User_validate. cbn [name password].
  assert (E : (length n <? 3) || (30 <? length n) = false).
  { apply orb_false_iff. rewrite !Nat.ltb_ge. lia. }
  rewrite E. cbn [users refreshTokens nextId bcryptCalls].
  apply find_none_existsb in Hf. rewrite Hf. reflexivity.
Qed.

(** C6.  The handler misses a case of the claim: a register request
    that carries no name at all, with a password that passes the
    password test, is not answered 400.  [RegExp.test] reads the missing
    name as the string "undefined", which matches the username pattern;
    the record is then refused by the schema, whose [name] is required,
    and the [catch] answers 500.  No user is stored. *)
Theorem register_missing_name env sys req w :
  world_ok w ->
  body_name req = None ->
  passwordRegex_test (body_password req) = true ->
  usernameRegex_test (body_name req) = true /\
  exists w',
    post_register env sys req w =
      (Ok (json 500 (ErrorBody "Server error during registration")), w') /\
    users w' = users w /\
    refreshTokens w' = refreshTokens w.
Proof.
  intros Hok Hb Hp. rewrite Hb. split; [reflexivity|].
  destruct (body_password req) as [p|] eqn:Ep;
    [|vm_compute in Hp; discriminate Hp].
  assert (Hf : find (name_is None) (users w) = None).
  { apply find_none_existsb.
    destruct (existsb (name_is None) (users w)) eqn:E; [|reflexivity].
    exfalso. apply existsb_exists in E as (u & Hin & Hu).
    apply name_is_eq in Hu.
    pose proof (users_valid w Hok) as Hv. rewrite Forall_forall in Hv.
    specialize (Hv u Hin). unfold User_validate in Hv. rewrite Hu in Hv.
    discriminate. }
  unfold_register. rewrite Hb, Ep, Hp.
  change (usernameRegex_test None) with true.
  cbv beta iota delta [negb init_name init_password]. rewrite Hf.
  eexists. split; [reflexivity|]. split; reflexivity.
Qed.

Lemma register_missing_name_witness :
  usernameRegex_test None = true /\
  exists w',
    post_register env0 (at_time t0)
      {| body_name := None; body_password := Some (Js.lit "Passw0rd1");
         body_isAdmin := None; body_token := None; authorization := None |}
      Db.empty =
      (Ok (json 500 (ErrorBody "Server error during registration")), w') /\
    users w' = users Db.empty /\
    refreshTokens w' = refreshTokens Db.empty.
Proof.
  apply (register_missing_name env0 (at_time t0)
           {| body_name := None; body_password := Some (Js.lit "Passw0rd1");
              body_isAdmin := None; body_token := None;
              authorization := None |} Db.empty).
  - exact empty_ok.
  - reflexivity.
  - reflexivity.
Defined.

(** X18.  A register request is answered 400, and nothing is written,
    whenever its name, read as a string the way [RegExp.test] reads it
    (a missing field reads "undefined"), is not 3 to 20 letters, digits
    and underscores, or its password, read the same way, does not have
    8 code units with an uppercase letter, a lowercase letter and a
    digit among them. *)
Theorem register_validation env sys req w :
  ~ username_ok (Js.ToString (body_name req)) \/
  ~ password_ok (Js.ToString (body_password req)) ->
  exists msg,
    post_register env sys req w = (Ok (json 400 (ErrorBody msg)), w).
Proof.
  intros H.
  destruct (usernameRegex_test (body_name req)) eqn:En.
  - destruct (passwordRegex_test (body_password req)) eqn:Ep.
    + exfalso. apply usernameRegex_iff in En.
      apply passwordRegex_sound in Ep. tauto.
    + eexists. now apply post_register_bad_password.
  - eexists. now apply post_register_bad_name.
Qed.

Lemma register_validation_witness :
  exists msg,
    post_register env0 (at_time t0) (credentials "bob" "alllowercase1")
      registered
    = (Ok (json 400 (ErrorBody msg)), registered).
Proof.
  apply (register_validation env0 (at_time t0)
           (credentials "bob" "alllowercase1") registered).
  right. intros (_ & (c & Hin & Hc) & _).
  vm_compute in Hin.
  repeat (destruct Hin as [<-|Hin]; [lia|]).
  destruct Hin.
Defined.

Lemma find_none_filter {A} (p : A -> bool) l :
  find p l = None -> filter p l = [].
Proof.
  induction l as [|x l IH]; simpl; [reflexivity|].
  destruct (p x); [discriminate | exact IH].
Qed.

(** X19.  Registering a name that matches the username pattern and is
    not yet registered, with a password that passes the password test,
    is answered 201 and stores one record for that name.  Whatever
    requests are served afterwards, a further register call for the
    same name with a password that passes the test is answered 409,
    leaves the store as it was, and the name still has exactly one
    record. *)
Theorem register_once env sys req w n :
  body_name req = Some n ->
  username_ok n ->
  passwordRegex_test (body_password req) = true ->
  find (name_is (Some n)) (users w) = None ->
  exists u w1,
    post_register env sys req w =
      (Ok (json 201 (Created "User created successfully" (_id u) (Some n))),
       w1) /\
    users w1 = users w ++ [u] /\
    name u = Some n /\
    count_named n w1 = 1 /\
    forall calls sys' req',
      body_name req' = Some n ->
      passwordRegex_test (body_password req') = true ->
      post_register env sys' req' (run env calls w1) =
        (Ok (json 409 (ErrorBody "Username already exists")),
         run env calls w1) /\
      count_named n (run env calls w1) = 1.
Proof.
  intros Hb Hn Hp Hf.
  assert (Ht : usernameRegex_test (Some n) = true)
    by now apply usernameRegex_iff.
  destruct (post_register_fresh env sys req w n Hb Ht Hp Hf)
    as (p & Ep & Hr).
  exists (stored_user sys (nextId w) n p). eexists. split; [exact Hr|].
  cbn [users _id name stored_user].
  split; [reflexivity|]. split; [reflexivity|].
  assert (H1 : count_named n
    {| users := users w ++ [stored_user sys (nextId w) n p];
       refreshTokens := refreshTokens w;
       nextId := S (nextId w);
       bcryptCalls := bcryptCalls w ++ [Bcrypt.CallHash p 10] |} = 1).
  { unfold count_named. cbn [users].
    rewrite filter_app, (find_none_filter _ _ Hf). cbn [filter app].
    assert (E : name_is (Some n) (stored_user sys (nextId w) n p) = true)
      by now apply name_is_eq.
    rewrite E. reflexivity. }
  split; [exact H1|].
  intros calls sys' req' Hb' Hp'.
  assert (H2 : count_named n (run env calls
    {| users := users w ++ [stored_user sys (nextId w) n p];
       refreshTokens := refreshTokens w;
       nextId := S (nextId w);
       bcryptCalls := bcryptCalls w ++ [Bcrypt.CallHash p 10] |}) = 1).
  { rewrite run_count; [exact H1 | rewrite H1; constructor]. }
  split; [|exact H2].
  destruct (count_find n _ (eq_ind_r (fun k => 1 <= k) (le_n 1) H2))
    as [u' Hu'].
  apply post_register_duplicate with (u := u'); rewrite ?Hb'; assumption.
Qed.

Lemma alice_name_ok : username_ok (Js.lit "alice_01").
Proof.
  apply (usernameRegex_iff (Some (Js.lit "alice_01"))). reflexivity.
Qed.

Lemma register_once_witness :
  exists u w1,
    post_register env0 (at_time t0) alice Db.empty =
      (Ok (json 201 (Created "User created successfully" (_id u)
                       (Some (Js.lit "alice_01")))), w1) /\
    users w1 = users Db.empty ++ [u] /\
    name u = Some (Js.lit "alice_01") /\
    count_named (Js.lit "alice_01") w1 = 1 /\
    forall calls sys' req',
      body_name req' = Some (Js.lit "alice_01") ->
      passwordRegex_test (body_password req') = true ->
      post_register env0 sys' req' (run env0 calls w1) =
        (Ok (json 409 (ErrorBody "Username already exists")),
         run env0 calls w1) /\
      count_named (Js.lit "alice_01") (run env0 calls w1) = 1.
Proof.
  apply (register_once env0 (at_time t0) alice Db.empty (Js.lit "alice_01")).
  - reflexivity.
  - exact alice_name_ok.
  - reflexivity.
  - reflexivity.
Defined.

(** The scenario of the specification: a second registration of alice
    is refused. *)
Example alice_twice :
  fst (post_register env0 (at_time (t0 + minute)) alice registered) =
    Ok (json 409 (ErrorBody "Username already exists")).
Proof. reflexivity. Qed.

(** C7.  The handler refuses passwords that the claim calls valid: a
    password with a line break in it fails the password test, because
    the [.] of the pattern does not match a line break, and the request
    is answered 400 with the message that states the rule, although the
    name is valid and free and the password has 8 characters with an
    uppercase letter, a lowercase letter and a digit.  Nothing is
    stored. *)
Theorem register_refuses_line_break env sys req w p c :
  usernameRegex_test (body_name req) = true ->
  body_password req = Some p ->
  In c p ->
  Terms.line_break c ->
  post_register env sys req w =
    (Ok (json 400 (ErrorBody
       "Password must contain: 8+ chars, 1 uppercase, 1 lowercase, 1 number")),
     w).
Proof.
  intros Hn Hp Hin Hc. apply post_register_bad_password; [assumption|].
  rewrite Hp. unfold passwordRegex_test. cbn [Js.ToString].
  assert (Hd : forallb Js.dot p = false).
  { destruct (forallb Js.dot p) eqn:E; [|reflexivity]. exfalso.
    rewrite forallb_forall in E. specialize (E c Hin).
    unfold Js.dot, Js.is_line_terminator in E.
    apply negb_true_iff in E. rewrite !orb_false_iff, !N.eqb_neq in E.
    unfold Terms.line_break in Hc. intuition congruence. }
  rewrite Hd, andb_false_r. reflexivity.
Qed.

Lemma register_refuses_line_break_witness :
  let p := Js.lit "Passw0rd" ++ [10%N; 49%N] in
  password_ok p /\
  username_ok (Js.lit "carol") /\
  find (name_is (Some (Js.lit "carol"))) (users Db.empty) = None /\
  post_register env0 (at_time t0)
    {| body_name := Some (Js.lit "carol"); body_password := Some p;
       body_isAdmin := None; body_token := None; authorization := None |}
    Db.empty =
    (Ok (json 400 (ErrorBody
       "Password must contain: 8+ chars, 1 uppercase, 1 lowercase, 1 number")),
     Db.empty).
Proof.
  intros p. split; [|split; [|split]].
  - split; [vm_compute; lia|].
    split; [exists 80%N | split; [exists 97%N | exists 48%N]];
      (split; [vm_compute; auto 10 | unfold digit; lia]).
  - apply (usernameRegex_iff (Some (Js.lit "carol"))). reflexivity.
  - reflexivity.
  - apply (register_refuses_line_break env0 (at_time t0)
             {| body_name := Some (Js.lit "carol"); body_password := Some p;
                body_isAdmin := None; body_token := None;
                authorization := None |} Db.empty p 10%N).
    + reflexivity.
    + reflexivity.
    + vm_compute. auto 10.
    + left. reflexivity.
Defined.

End RegisterSpec.

(* ================================================================== *)
(** ** The login operation against the specification *)

Module LoginSpec.
Import Db Http Auth Spec EqFacts DbFacts Invariants Scenario.

Ltac unfold_login :=
  cbv beta iota zeta delta
    [post_login try_catch bind ret throw gets modify record_call
     freshId bcrypt_compare RefreshToken_create User_findOne].


Lemma post_login_wrong env sys req w u p h :
  find (name_is (body_name req)) (users w) = Some u ->
  body_password req = Some p ->
  password u = Some h ->
  Bcrypt.matches p h = false ->
  post_login env sys req w =
    (Ok (json 401 (ErrorBody "Invalid credentials")),
     {| users := users w; refreshTokens := refreshTokens w;
        nextId := nextId w;
        bcryptCalls := bcryptCalls w ++ [Bcrypt.CallCompare p h] |}).
Proof.
  intros Hf Hp Hh Hm. unfold_login. rewrite Hf, Hp, Hh, Hm. reflexivity.
Qed.

Lemma post_login_right env sys req w u p h :
  find (name_is (body_name req)) (users w) = Some u ->
  body_password req = Some p ->
  password u = Some h ->
  Bcrypt.matches p h = true ->
  token_exists (issued_refresh env sys u) w = false ->
  post_login env sys req w =
    (Ok (json 200
       (LoggedIn (generateAccessToken env sys u) (issued_refresh env sys u)
          (_id u) (name u) (Js.or_bool (user_isAdmin u) false))),
     {| users := users w;
        refreshTokens := refreshTokens w ++
          [{| rt_id := nextId w; token := issued_refresh env sys u;
              userId := _id u;
              expiresAt := now sys + 7 * 24 * 60 * 60 * 1000;
              rt_createdAt := now sys |}];
        nextId := S (nextId w);
        bcryptCalls := bcryptCalls w ++ [Bcrypt.CallCompare p h] |}).
Proof.
  intros Hf Hp Hh Hm Hex. unfold_login. rewrite Hf, Hp, Hh, Hm.
  cbv beta iota delta [negb].
  cbn [users refreshTokens nextId bcryptCalls].
  unfold token_exists, issued_refresh in Hex. rewrite Hex. reflexivity.
Qed.

(** A 200 from login comes from a stored user whose password matched. *)
Lemma post_login_200 env sys req w res w' :
  post_login env sys req w = (Ok res, w') ->
  status res = 200 ->
  exists u p h,
    find (name_is (body_name req)) (users w) = Some u /\
    body_password req = Some p /\
    password u = Some h /\
    Bcrypt.matches p h = true /\
    res = json 200
      (LoggedIn (generateAccessToken env sys u) (issued_refresh env sys u)
         (_id u) (name u) (Js.or_bool (user_isAdmin u) false)).
Proof.
  unfold_login.
  destruct (find (name_is (body_name req)) (users w)) as [u|] eqn:Hf;
    [|intros H; injection H as <- _; discriminate].
  destruct (body_password req) as [p|] eqn:Hp;
    [|intros H; injection H as <- _; discriminate].
  destruct (password u) as [h|] eqn:Hh;
    [|intros H; injection H as <- _; discriminate].
  destruct (Bcrypt.matches p h) eqn:Hm;
    [|intros H; injection H as <- _; discriminate].
  cbv beta iota delta [negb].
  cbn [users refreshTokens nextId bcryptCalls].
  destruct (existsb _ _);
    intros H; injection H as <- _; [discriminate|].
  intros _. exists u, p, h. repeat split; auto.
Qed.



(** C8.  When login succeeds, the access token it returns decodes to
    the claims of the user who logged in: that user's id, name and
    admin flag, which are also the ones in the response body.  The
    token verifies against the access secret until its expiry, 15
    minutes after issuance. *)
Theorem login_token_claims env sys req w res w' :
  post_login env sys req w = (Ok res, w') ->
  status res = 200 ->
  exists u accessToken refreshToken c,
    find (name_is (body_name req)) (users w) = Some u /\
    body res =
      LoggedIn accessToken refreshToken (_id u) (name u)
        (Js.or_bool (user_isAdmin u) false) /\
    Jwt.decode accessToken = Some c /\
    Jwt.userId c = Some (_id u) /\
    Jwt.name c = name u /\
    Jwt.isAdmin c = Some (Js.or_bool (user_isAdmin u) false) /\
    forall later,
      (Jwt.seconds later < Jwt.seconds (now sys) + 15 * 60)%Z ->
      Jwt.verify accessToken (ACCESS_TOKEN_SECRET env) later = inr c.
Proof.
  intros Hl Hs.
  destruct (post_login_200 env sys req w res w' Hl Hs)
    as (u & p & h & Hf & Hp & Hh & Hm & ->).
  exists u. eexists. eexists. eexists.
  split; [exact Hf|]. split; [reflexivity|].
  split; [reflexivity|]. cbn [Jwt.userId Jwt.name Jwt.isAdmin].
  repeat split.
  intros later Hlt. unfold generateAccessToken, Jwt.sign, Jwt.verify.
  cbn [Jwt.key Jwt.payload Jwt.exp]. rewrite String.eqb_refl.
  destruct (Z.leb_spec (Jwt.seconds (now sys) + 15 * 60)
              (Jwt.seconds later)); [lia | reflexivity].
Qed.

Lemma login_token_claims_witness :
  exists u accessToken refreshToken c,
    find (name_is (body_name alice)) (users registered) = Some u /\
    body (json 200 (LoggedIn alice_access alice_refresh 0 (Some (Js.lit "alice_01"))
                      false)) =
      LoggedIn accessToken refreshToken (_id u) (name u)
        (Js.or_bool (user_isAdmin u) false) /\
    Jwt.decode accessToken = Some c /\
    Jwt.userId c = Some (_id u) /\
    Jwt.name c = name u /\
    Jwt.isAdmin c = Some (Js.or_bool (user_isAdmin u) false) /\
    forall later,
      (Jwt.seconds later < Jwt.seconds (now (at_time t0)) + 15 * 60)%Z ->
      Jwt.verify accessToken (ACCESS_TOKEN_SECRET env0) later = inr c.
Proof.
  apply (login_token_claims env0 (at_time t0) alice registered
           (json 200 (LoggedIn alice_access alice_refresh 0
                        (Some (Js.lit "alice_01")) false))
           logged_in).
  - reflexivity.
  - reflexivity.
Defined.

Lemma post_token_200 env sys req w res w' :
  post_token env sys req w = (Ok res, w') ->
  status res = 200 ->
  exists u, res = json 200 (Refreshed (generateAccessToken env sys u)).
Proof.
  cbv beta iota zeta delta
    [post_token try_catch bind ret gets modify RefreshToken_findOne
     RefreshToken_deleteOne User_findById].
  split_cases; intros H; injection H as <- _; try discriminate.
  intros _. eexists. reflexivity.
Qed.

(** C4.  The User schema has no admin flag, so the [isAdmin] of a
    register request is never stored: the outcome of a registration
    does not depend on it, no stored record yields an admin flag, and
    every access token issued by login or by refresh carries
    [isAdmin = false], in whatever state the store is. *)
Theorem admin_flag_never_stored env sys req w :
  (forall a,
     post_register env sys (with_isAdmin a req) w =
     post_register env sys req w) /\
  (forall u,
     In u (users (snd (post_register env sys req w))) ->
     user_isAdmin u = None) /\
  (forall res w',
     post_login env sys req w = (Ok res, w') ->
     status res = 200 ->
     exists accessToken refreshToken uid nm c,
       body res = LoggedIn accessToken refreshToken uid nm false /\
       Jwt.decode accessToken = Some c /\
       Jwt.isAdmin c = Some false) /\
  (forall res w',
     post_token env sys req w = (Ok res, w') ->
     status res = 200 ->
     exists accessToken c,
       body res = Refreshed accessToken /\
       Jwt.decode accessToken = Some c /\
       Jwt.isAdmin c = Some false).
Proof.
  split; [reflexivity|]. split; [reflexivity|]. split.
  - intros res w' Hl Hs.
    destruct (post_login_200 env sys req w res w' Hl Hs)
      as (u & p & h & _ & _ & _ & _ & ->).
    do 5 eexists. split; [reflexivity|]. split; reflexivity.
  - intros res w' Ht Hs.
    destruct (post_token_200 env sys req w res w' Ht Hs) as (u & ->).
    do 2 eexists. split; [reflexivity|]. split; reflexivity.
Qed.

Lemma admin_flag_never_stored_witness :
  post_register env0 (at_time t0) (with_isAdmin (Some false) alice) Db.empty
    = post_register env0 (at_time t0) alice Db.empty /\
  (exists accessToken refreshToken uid nm c,
     body (json 200 (LoggedIn alice_access alice_refresh 0
                       (Some (Js.lit "alice_01")) false)) =
       LoggedIn accessToken refreshToken uid nm false /\
     Jwt.decode accessToken = Some c /\
     Jwt.isAdmin c = Some false) /\
  (exists accessToken c,
     body (json 200 (Refreshed
             (Jwt.sign (Some 0) (Some (Js.lit "alice_01")) (Some false)
                "access-secret" (15 * 60) (t0 + minute)))) =
       Refreshed accessToken /\
     Jwt.decode accessToken = Some c /\
     Jwt.isAdmin c = Some false).
Proof.
  split; [|split].
  - apply (proj1 (admin_flag_never_stored env0 (at_time t0) alice Db.empty)).
  - apply (proj1 (proj2 (proj2
      (admin_flag_never_stored env0 (at_time t0) alice registered)))
      _ logged_in); reflexivity.
  - apply (proj2 (proj2 (proj2
      (admin_flag_never_stored env0 (at_time (t0 + minute))
         (with_token alice_refresh) logged_in)))
      _ logged_in); reflexivity.
Defined.

End LoginSpec.

(* ================================================================== *)
(** ** The request authenticator against the specification *)

Module ApiSpec.
Import Db Http Api Spec JwtFacts Scenario.

Lemma authenticateToken_verify env sys req t :
  bearer (authorization req) = Some t ->
  t <> [] ->
  authenticateToken env sys req =
    match Jwt.verify t (ACCESS_TOKEN_SECRET env) (now sys) with
    | inl Jwt.TokenExpiredError =>
        Reject (json 401 (ErrorBody "Token expired"))
    | inl Jwt.JsonWebTokenError =>
        Reject (json 403 (ErrorBody "Invalid token"))
    | inr c =>
        Next {| userId := Jwt.userId c; name := Jwt.name c;
                isAdmin := Js.or_bool (Jwt.isAdmin c) false |}
    end.
Proof.
  intros Hb Ht. unfold authenticateToken. rewrite Hb.
  destruct t as [|a t]; [congruence|]. cbn [Jwt.truthy negb].
  destruct (Jwt.verify (a :: t) (ACCESS_TOKEN_SECRET env) (now sys))
    as [[]|c]; reflexivity.
Qed.

Example split_space_fields :
  Jwt.split_space (Jwt.lit "a b") = [Jwt.lit "a"; Jwt.lit "b"] /\
  Jwt.split_space (Jwt.lit "") = [[]] /\
  Jwt.split_space (Jwt.lit "a  b") = [Jwt.lit "a"; []; Jwt.lit "b"].
Proof. repeat split. Qed.

Example bearer_of_header :
  bearer (Some (Jwt.lit "Bearer " ++ alice_access)) = Some alice_access /\
  bearer (Some (Jwt.lit "Bearer")) = None /\
  bearer (Some (Jwt.lit "")) = Some [] /\
  bearer None = None.
Proof. repeat split. Qed.

Lemma signed_nonempty t secret : signature_verifies t secret -> t <> [].
Proof. intros (j & -> & _). discriminate. Qed.

(** C9.  The authenticator is a function of the bearer token of the
    request, and never reads or writes the store: with no token the
    request is answered 401; with a token that has expired (its
    signature being good), 401; with a token whose signature is invalid,
    403; with a valid token the request is admitted and the handler
    behind the guard runs with the user id, name and admin flag taken
    from the token's claims. *)
Theorem authenticateToken_cases env sys req handler w :
  (forall req',
     bearer (authorization req') = bearer (authorization req) ->
     authenticateToken env sys req' = authenticateToken env sys req) /\
  (Jwt.truthy (bearer (authorization req)) = false ->
   protected env sys req handler w =
     (Ok (json 401 (ErrorBody "Missing authentication token")), w)) /\
  (forall t,
     bearer (authorization req) = Some t ->
     signature_verifies t (ACCESS_TOKEN_SECRET env) ->
     expired t (now sys) ->
     protected env sys req handler w =
       (Ok (json 401 (ErrorBody "Token expired")), w)) /\
  (forall t,
     bearer (authorization req) = Some t ->
     t <> [] ->
     ~ signature_verifies t (ACCESS_TOKEN_SECRET env) ->
     protected env sys req handler w =
       (Ok (json 403 (ErrorBody "Invalid token")), w)) /\
  (forall t,
     bearer (authorization req) = Some t ->
     signature_verifies t (ACCESS_TOKEN_SECRET env) ->
     ~ expired t (now sys) ->
     exists c,
       Jwt.decode t = Some c /\
       protected env sys req handler w =
         handler {| userId := Jwt.userId c; name := Jwt.name c;
                    isAdmin := Js.or_bool (Jwt.isAdmin c) false |} w).
Proof.
  split; [|split; [|split; [|split]]].
  - intros req' H. unfold authenticateToken. rewrite H. reflexivity.
  - intros H. unfold protected, authenticateToken. rewrite H. reflexivity.
  - intros t Hb Hs He. unfold protected.
    rewrite (authenticateToken_verify env sys req t Hb
               (signed_nonempty _ _ Hs)).
    rewrite (verify_expired _ _ _ Hs He). reflexivity.
  - intros t Hb Ht Hs. unfold protected.
    rewrite (authenticateToken_verify env sys req t Hb Ht).
    rewrite (verify_bad_signature _ _ _ Hs). reflexivity.
  - intros t Hb Hs He. unfold protected.
    rewrite (authenticateToken_verify env sys req t Hb
               (signed_nonempty _ _ Hs)).
    destruct (verify_valid _ _ _ Hs He) as (c & Hv & Hd).
    exists c. rewrite Hv. split; [exact Hd | reflexivity].
Qed.

Lemma authenticateToken_cases_witness :
  let header := Jwt.lit "Bearer " ++ alice_access in
  protected env0 (at_time (t0 + minute)) (with_header (Jwt.lit "Bearer"))
    (fun _ => ret (json 200 StatusText)) logged_in
    = (Ok (json 401 (ErrorBody "Missing authentication token")), logged_in) /\
  protected env0 (at_time (t0 + 16 * minute)) (with_header header)
    (fun _ => ret (json 200 StatusText)) logged_in
    = (Ok (json 401 (ErrorBody "Token expired")), logged_in) /\
  protected env0 (at_time (t0 + minute))
    (with_header (Jwt.lit "Bearer " ++ alice_refresh))
    (fun _ => ret (json 200 StatusText)) logged_in
    = (Ok (json 403 (ErrorBody "Invalid token")), logged_in) /\
  exists c,
    Jwt.decode alice_access = Some c /\
    protected env0 (at_time (t0 + minute)) (with_header header)
      (fun user => ret (json 200 (Created "ok" 0 (name user))))
      logged_in
    = ret (json 200 (Created "ok" 0 (Jwt.name c))) logged_in.
Proof.
  intros header.
  split; [|split; [|split]].
  - apply (proj1 (proj2 (authenticateToken_cases env0 (at_time (t0 + minute))
             (with_header (Jwt.lit "Bearer")) _ logged_in))).
    reflexivity.
  - apply (proj1 (proj2 (proj2 (authenticateToken_cases env0
             (at_time (t0 + 16 * minute)) (with_header header) _ logged_in)))
             alice_access).
    + reflexivity.
    + eexists. split; reflexivity.
    + eexists. eexists. split; [reflexivity|]. split; [reflexivity|].
      vm_compute. discriminate.
  - apply (proj1 (proj2 (proj2 (proj2 (authenticateToken_cases env0
             (at_time (t0 + minute))
             (with_header (Jwt.lit "Bearer " ++ alice_refresh)) _
             logged_in)))) alice_refresh).
    + reflexivity.
    + discriminate.
    + intros (j & Hj & Hk). injection Hj as <-. vm_compute in Hk.
      discriminate.
  - destruct (proj2 (proj2 (proj2 (proj2 (authenticateToken_cases env0
             (at_time (t0 + minute)) (with_header header)
             (fun user => ret (json 200 (Created "ok" 0 (name user))))
             logged_in)))) alice_access) as (c & Hd & Hp).
    + reflexivity.
    + eexists. split; reflexivity.
    + intros (j & e & Hj & He & Hle). injection Hj as <-.
      injection He as <-. vm_compute in Hle. apply Hle. reflexivity.
    + exists c. split; [exact Hd | exact Hp].
Defined.

End ApiSpec.

(* ================================================================== *)
(** ** Ids, growth and answers of the authentication server *)

Module StoreFacts.
Import Db Http Auth Spec Terms EqFacts DbFacts Invariants Scenario.

(** What one request does to the users and to the counter. *)
Lemma handle_users_ids r env sys req w :
  let w' := snd (handle r env sys req w) in
  (users w' = users w /\ nextId w <= nextId w') \/
  (exists u, users w' = users w ++ [u] /\ _id u = nextId w /\
             nextId w' = S (nextId w)).
Proof.
  destruct r; unfold_handlers; split_cases;
    cbn [snd users nextId]; auto.
  right. eexists. split; [reflexivity|]. split; reflexivity.
Qed.

(** What one request does to the refresh tokens, with the user a new
    token is signed for. *)
Lemma handle_tokens_ids r env sys req w :
  let w' := snd (handle r env sys req w) in
  refreshTokens w' = refreshTokens w \/
  (exists q, refreshTokens w' = remove_first (token_is q) (refreshTokens w)) \/
  exists d u, refreshTokens w' = refreshTokens w ++ [d] /\
              In u (users w) /\
              token d = issued_refresh env sys u.
Proof.
  destruct r; unfold_handlers; split_cases;
    cbn [snd refreshTokens]; auto;
    try solve [right; left; eexists; reflexivity].
  right. right. eexists. eexists. split; [reflexivity|]. cbn [token users].
  split; [|reflexivity].
  match goal with
  | H : find _ _ = Some _ |- _ => apply find_some in H; apply H
  end.
Qed.

Lemma handle_ids_ok r env sys req w :
  ids_ok w -> ids_ok (snd (handle r env sys req w)).
Proof.
  intros (Hnd & Hlt & Htk).
  pose proof (handle_users_ids r env sys req w) as Hu.
  pose proof (handle_tokens_ids r env sys req w) as Ht.
  cbv zeta in Hu, Ht.
  assert (Hmono : nextId w <= nextId (snd (handle r env sys req w))).
  { destruct Hu as [[_ H]|(u & _ & _ & H)]; [exact H | rewrite H; lia]. }
  split; [|split].
  - destruct Hu as [[-> _]|(u & -> & Hid & _)]; [assumption|].
    rewrite map_app. apply NoDup_snoc; [assumption|].
    cbn [map]. intros Hin. apply in_map_iff in Hin as (v & Hv & Hin).
    rewrite Forall_forall in Hlt. specialize (Hlt v Hin). lia.
  - destruct Hu as [[-> _]|(u & -> & Hid & Hn)].
    + eapply Forall_impl; [|exact Hlt]. cbv beta. intros v Hv. lia.
    + apply Forall_app. split.
      * eapply Forall_impl; [|exact Hlt]. cbv beta. intros v Hv. lia.
      * constructor; [lia | constructor].
  - assert (Hold : Forall
      (fun d => exists j i, token d = [Jwt.Tok j] /\
                            Jwt.userId (Jwt.payload j) = Some i /\
                            i < nextId (snd (handle r env sys req w)))
      (refreshTokens w)).
    { eapply Forall_impl; [|exact Htk]. cbv beta.
      intros d (j & i & Hj & Hi & Hlt'). exists j, i.
      split; [assumption|]. split; [assumption | lia]. }
    destruct Ht as [->|[[q ->]|(d & u & -> & Hin & Hd)]].
    + exact Hold.
    + now apply remove_first_Forall.
    + apply Forall_app. split; [exact Hold|].
      constructor; [|constructor].
      rewrite Hd. eexists. exists (_id u). split; [reflexivity|].
      split; [reflexivity|].
      rewrite Forall_forall in Hlt. specialize (Hlt u Hin). lia.
Qed.

Lemma run_ids_ok env calls :
  forall w, ids_ok w -> ids_ok (run env calls w).
Proof.
  induction calls as [|[[r sys] req] calls IH]; intros w Hw; simpl;
    [assumption|].
  apply IH, handle_ids_ok, Hw.
Qed.

Lemma empty_ids_ok : ids_ok Db.empty.
Proof. repeat split; constructor. Qed.

(** X1.  Whatever requests the server has served since it started with
    an empty store: user names are unique, every user passed the
    validators of the schema, every stored token string was issued by
    [jwt.sign], no two users share an id, and every id in use, by a user
    or in the claims of a stored token, is below the counter. *)
Theorem store_invariants env calls :
  let w := run env calls Db.empty in
  NoDup (map name (users w)) /\
  Forall (fun u => User_validate u = None) (users w) /\
  Forall (fun d => exists j, token d = [Jwt.Tok j]) (refreshTokens w) /\
  ids_ok w.
Proof.
  cbv zeta.
  destruct (run_ok env calls Db.empty empty_ok) as [_ Hs Hn Hv].
  repeat split; try assumption; apply run_ids_ok, empty_ids_ok.
Qed.

(** X2.  No request deletes or alters a user: the users after a run are
    the users before it, followed by those registered meanwhile. *)
Theorem users_only_grow env calls :
  forall w, exists added, users (run env calls w) = users w ++ added.
Proof.
  induction calls as [|[[r sys] req] calls IH]; intros w; simpl.
  - exists []. now rewrite app_nil_r.
  - destruct (IH (snd (handle r env sys req w))) as [l Hl].
    destruct (handle_users r env sys req w) as [H|(u & H & _)];
      rewrite Hl, H.
    + exists l. reflexivity.
    + exists (u :: l). now rewrite <- app_assoc.
Qed.

(** X12.  A login that is not answered 200 stores no session, and a
    registration that is not answered 201 stores no user; registration
    never touches the sessions and login never touches the users. *)
Theorem failed_requests_write_nothing env sys req w :
  (forall res w',
     post_login env sys req w = (Ok res, w') ->
     users w' = users w /\
     (status res <> 200 -> refreshTokens w' = refreshTokens w)) /\
  (forall res w',
     post_register env sys req w = (Ok res, w') ->
     refreshTokens w' = refreshTokens w /\
     (status res <> 201 -> users w' = users w)).
Proof.
  split; intros res w'; unfold_handlers; split_cases;
    intros H; injection H as <- <-; cbn [users refreshTokens status json];
    split; try reflexivity; intros Hs; try reflexivity; congruence.
Qed.

Lemma failed_requests_write_nothing_witness :
  users (snd (post_login env0 (at_time t0) (credentials "alice_01" "wrong")
                registered)) = users registered /\
  refreshTokens (snd (post_login env0 (at_time t0)
                        (credentials "alice_01" "wrong") registered))
    = refreshTokens registered.
Proof.
  destruct (proj1 (failed_requests_write_nothing env0 (at_time t0)
                     (credentials "alice_01" "wrong") registered)
              (json 401 (ErrorBody "Invalid credentials"))
              (snd (post_login env0 (at_time t0)
                      (credentials "alice_01" "wrong") registered))
              eq_refl) as [H1 H2].
  split; [exact H1 | apply H2; discriminate].
Defined.

End StoreFacts.

(* ================================================================== *)
(** ** Sessions: login, refresh and logout together *)

Module SessionFacts.
Import Db Http Auth Spec Terms EqFacts DbFacts JwtFacts Invariants.
Import RefreshSpec RegisterSpec LoginSpec StoreFacts Scenario.

(** A 200 from login, with the world it leaves. *)
Lemma post_login_200_world env sys req w res w' :
  post_login env sys req w = (Ok res, w') ->
  status res = 200 ->
  exists u p h,
    find (name_is (body_name req)) (users w) = Some u /\
    body_password req = Some p /\
    password u = Some h /\
    Bcrypt.matches p h = true /\
    token_exists (issued_refresh env sys u) w = false /\
    res = json 200
      (LoggedIn (generateAccessToken env sys u) (issued_refresh env sys u)
         (_id u) (name u) (Js.or_bool (user_isAdmin u) false)) /\
    w' = {| users := users w;
            refreshTokens := refreshTokens w ++
              [{| rt_id := nextId w; token := issued_refresh env sys u;
                  userId := _id u;
                  expiresAt := now sys + 7 * 24 * 60 * 60 * 1000;
                  rt_createdAt := now sys |}];
            nextId := S (nextId w);
            bcryptCalls := bcryptCalls w ++ [Bcrypt.CallCompare p h] |}.
Proof.
  intros Hl Hs.
  destruct (post_login_200 env sys req w res w' Hl Hs)
    as (u & p & h & Hf & Hp & Hh & Hm & Hres).
  exists u, p, h. repeat (split; [assumption|]).
  destruct (token_exists (issued_refresh env sys u) w) eqn:Hex.
  - exfalso. revert Hl. unfold_login. rewrite Hf, Hp, Hh, Hm.
    cbv beta iota delta [negb].
    cbn [users refreshTokens nextId bcryptCalls].
    unfold token_exists, issued_refresh in Hex. rewrite Hex.
    intros H. injection H as <- _. discriminate.
  - split; [reflexivity|]. split; [assumption|].
    rewrite (post_login_right env sys req w u p h Hf Hp Hh Hm Hex) in Hl.
    now injection Hl as _ <-.
Qed.

(** X3.  A login answered 200 has stored its refresh token: one row is
    appended, for the token of the response and the id of the user, with
    an expiry seven days after the request; the users are left alone. *)
Theorem login_persists_session env sys req w res w' :
  post_login env sys req w = (Ok res, w') ->
  status res = 200 ->
  exists accessToken refreshToken uid nm row,
    body res = LoggedIn accessToken refreshToken uid nm false /\
    refreshTokens w' = refreshTokens w ++ [row] /\
    token row = refreshToken /\
    userId row = uid /\
    expiresAt row = (now sys + 604800000)%Z /\
    token_exists refreshToken w' = true /\
    users w' = users w.
Proof.
  intros Hl Hs.
  destruct (post_login_200_world env sys req w res w' Hl Hs)
    as (u & p & h & _ & _ & _ & _ & Hex & -> & ->).
  do 5 eexists. split; [reflexivity|]. cbn [refreshTokens users].
  split; [reflexivity|]. cbn [token userId expiresAt].
  repeat split; try assumption.
  unfold token_exists. cbn [refreshTokens].
  rewrite existsb_app. cbn [existsb]. unfold token_is at 2. cbn [token].
  rewrite jstring_eqb_refl. apply orb_true_r.
Qed.

Lemma login_persists_session_witness :
  exists accessToken refreshToken uid nm row,
    body (json 200 (LoggedIn alice_access alice_refresh 0 (Some (Js.lit "alice_01"))
                      false)) =
      LoggedIn accessToken refreshToken uid nm false /\
    refreshTokens logged_in = refreshTokens registered ++ [row] /\
    token row = refreshToken /\
    userId row = uid /\
    expiresAt row = (now (at_time t0) + 604800000)%Z /\
    token_exists refreshToken logged_in = true /\
    users logged_in = users registered.
Proof.
  apply (login_persists_session env0 (at_time t0) alice registered
           (json 200 (LoggedIn alice_access alice_refresh 0
                        (Some (Js.lit "alice_01")) false)) logged_in);
    reflexivity.
Defined.


Lemma issued_refresh_verify env sys u later :
  Jwt.verify (issued_refresh env sys u) (REFRESH_TOKEN_SECRET env) later =
    if (Jwt.seconds (now sys) + 604800 <=? Jwt.seconds later)%Z
    then inl Jwt.TokenExpiredError
    else inr {| Jwt.userId := Some (_id u); Jwt.name := None;
                Jwt.isAdmin := None; Jwt.iat := Jwt.seconds (now sys);
                Jwt.exp := Some (Jwt.seconds (now sys) + 604800)%Z |}.
Proof.
  unfold issued_refresh, Jwt.sign, Jwt.verify.
  cbn [Jwt.key Jwt.payload Jwt.exp]. rewrite String.eqb_refl. reflexivity.
Qed.





(** X5.  Seven days after the login that issued it, and from then on, a
    refresh token is refused: whatever the store holds, the request is
    answered 403 and the users are left alone. *)
Theorem refresh_token_expires env sys u sys' req' w :
  body_token req' = Some (issued_refresh env sys u) ->
  (Jwt.seconds (now sys) + 604800 <= Jwt.seconds (now sys'))%Z ->
  fst (post_token env sys' req' w) = Ok (sendStatus 403) /\
  users (snd (post_token env sys' req' w)) = users w.
Proof.
  intros Hb Hle.
  assert (Hne : issued_refresh env sys u <> []) by discriminate.
  destruct (token_exists (issued_refresh env sys u) w) eqn:Hex.
  - pose proof (issued_refresh_verify env sys u (now sys')) as Hv.
    apply Z.leb_le in Hle. rewrite Hle in Hv.
    rewrite (post_token_rejected env sys' req' w _ _ Hb Hne Hex Hv).
    split; reflexivity.
  - rewrite (post_token_unknown env sys' req' w _ Hb Hne Hex).
    split; reflexivity.
Qed.

Lemma refresh_token_expires_witness :
  fst (post_token env0 (at_time (t0 + 7 * day)) (with_token alice_refresh)
         logged_in) = Ok (sendStatus 403) /\
  users (snd (post_token env0 (at_time (t0 + 7 * day))
                (with_token alice_refresh) logged_in)) = users logged_in.
Proof.
  apply (refresh_token_expires env0 (at_time t0)
           (stored_user (at_time t0) 0 (Js.lit "alice_01") (Js.lit "Passw0rd!"))
           (at_time (t0 + 7 * day)) (with_token alice_refresh) logged_in).
  - reflexivity.
  - vm_compute. discriminate.
Defined.

Lemma refresh_logout_world r env sys req w :
  r = POST_token \/ r = DELETE_logout ->
  snd (handle r env sys req w) = w \/
  snd (handle r env sys req w) = without (body_token req) w.
Proof.
  intros [-> | ->]; unfold_handlers; split_cases; cbn [snd]; auto.
Qed.

(** X8.  Refresh and logout act on the token they are given and on no
    other: every other token string is stored afterwards exactly if it
    was stored before, and the users are left alone. *)
Theorem other_sessions_untouched r env sys req w t :
  r = POST_token \/ r = DELETE_logout ->
  body_token req <> Some t ->
  token_exists t (snd (handle r env sys req w)) = token_exists t w /\
  users (snd (handle r env sys req w)) = users w.
Proof.
  intros Hr Hne.
  destruct (refresh_logout_world r env sys req w Hr) as [-> | ->].
  - split; reflexivity.
  - split; [|reflexivity]. unfold token_exists, without.
    cbn [refreshTokens]. now apply remove_first_other.
Qed.

Lemma other_sessions_untouched_witness :
  token_exists alice_refresh
    (snd (handle DELETE_logout env0 (at_time (t0 + minute))
            (with_token alice_access) logged_in))
    = token_exists alice_refresh logged_in /\
  users (snd (handle DELETE_logout env0 (at_time (t0 + minute))
                (with_token alice_access) logged_in)) = users logged_in.
Proof.
  apply (other_sessions_untouched DELETE_logout env0 (at_time (t0 + minute))
           (with_token alice_access) logged_in alice_refresh).
  - right. reflexivity.
  - discriminate.
Defined.

Lemma find_app_none {A} (p : A -> bool) l l' :
  find p l = None -> find p (l ++ l') = find p l'.
Proof.
  induction l as [|y l IH]; simpl; [reflexivity|].
  destruct (p y); [discriminate | exact IH].
Qed.

Lemma fresh_id_has_no_token env sys u w :
  ids_ok w -> _id u = nextId w ->
  existsb (token_is (Some (issued_refresh env sys u))) (refreshTokens w)
    = false.
Proof.
  intros (_ & _ & Htk) Hid.
  destruct (existsb _ _) eqn:E; [|reflexivity]. exfalso.
  apply existsb_exists in E as (d & Hin & Hd). apply token_is_eq in Hd.
  rewrite Forall_forall in Htk.
  destruct (Htk d Hin) as (j & i & Hj & Hi & Hlt).
  rewrite Hd in Hj. unfold issued_refresh, Jwt.sign in Hj.
  injection Hj as <-. cbn [Jwt.payload Jwt.userId] in Hi.
  injection Hi as <-. lia.
Qed.

(** X9.  After a registration answered 201, a login with the same name
    is decided by what bcrypt reads of the password: the UTF-8 bytes and
    the NUL that ends them, 72 at most, repeated over the key schedule.
    A password that reads the same as the registered one (the
    registered one itself, or one that differs from it after the 72nd
    byte only) is answered 200 for the new user; a password that reads
    differently is answered 401. *)
Theorem register_then_login env sys req w n p :
  ids_ok w ->
  body_name req = Some n ->
  body_password req = Some p ->
  username_ok n ->
  passwordRegex_test (Some p) = true ->
  find (name_is (Some n)) (users w) = None ->
  exists id w1,
    post_register env sys req w =
      (Ok (json 201 (Created "User created successfully" id (Some n))), w1) /\
    forall sys' req' p',
      body_name req' = Some n ->
      body_password req' = Some p' ->
      (Bcrypt.schedule p' = Bcrypt.schedule p ->
       exists accessToken refreshToken,
         fst (post_login env sys' req' w1) =
           Ok (json 200
                 (LoggedIn accessToken refreshToken id (Some n) false))) /\
      (Bcrypt.schedule p' <> Bcrypt.schedule p ->
       fst (post_login env sys' req' w1) =
         Ok (json 401 (ErrorBody "Invalid credentials"))).
Proof.
  intros Hids Hb Hp Hn Ht Hf.
  assert (Hun : usernameRegex_test (Some n) = true)
    by now apply RegexFacts.usernameRegex_iff.
  assert (Hpt : passwordRegex_test (body_password req) = true)
    by now rewrite Hp.
  destruct (post_register_fresh env sys req w n Hb Hun Hpt Hf)
    as (p0 & Ep & Hr).
  assert (p0 = p) by congruence. subst p0.
  exists (nextId w). eexists. split; [exact Hr|].
  intros sys' req' p' Hb' Hp'.
  set (u := stored_user sys (nextId w) n p).
  assert (Hfind : find (name_is (body_name req'))
                    (users w ++ [u]) = Some u).
  { rewrite Hb', (find_app_none _ _ _ Hf). cbn [find].
    assert (E : name_is (Some n) u = true) by now apply name_is_eq.
    now rewrite E. }
  split.
  - intros Hs. do 2 eexists.
    erewrite post_login_right with (u := u) (p := p');
      [reflexivity | exact Hfind | exact Hp' | reflexivity | |].
    + cbn [Bcrypt.matches]. now apply str_eqb_eq.
    + unfold token_exists. cbn [refreshTokens].
      now apply fresh_id_has_no_token.
  - intros Hs.
    erewrite post_login_wrong with (u := u) (p := p');
      [reflexivity | exact Hfind | exact Hp' | reflexivity |].
    cbn [Bcrypt.matches].
    destruct (Js.str_eqb (Bcrypt.schedule p') (Bcrypt.schedule p)) eqn:E;
      [|reflexivity].
    apply str_eqb_eq in E. contradiction.
Qed.

Lemma register_then_login_witness :
  exists id w1,
    post_register env0 (at_time t0) alice Db.empty =
      (Ok (json 201 (Created "User created successfully" id
                       (Some (Js.lit "alice_01")))), w1) /\
    forall sys' req' p',
      body_name req' = Some (Js.lit "alice_01") ->
      body_password req' = Some p' ->
      (Bcrypt.schedule p' = Bcrypt.schedule (Js.lit "Passw0rd!") ->
       exists accessToken refreshToken,
         fst (post_login env0 sys' req' w1) =
           Ok (json 200
                 (LoggedIn accessToken refreshToken id
                    (Some (Js.lit "alice_01")) false))) /\
      (Bcrypt.schedule p' <> Bcrypt.schedule (Js.lit "Passw0rd!") ->
       fst (post_login env0 sys' req' w1) =
         Ok (json 401 (ErrorBody "Invalid credentials"))).
Proof.
  apply (register_then_login env0 (at_time t0) alice Db.empty
           (Js.lit "alice_01") (Js.lit "Passw0rd!")).
  - exact empty_ids_ok.
  - reflexivity.
  - reflexivity.
  - exact alice_name_ok.
  - reflexivity.
  - reflexivity.
Defined.

(** A password of 72 bytes and the same password with more after it
    read the same, and log in to the same account; a shorter password
    does not. *)
Example long_password_tail_ignored :
  let p := "Passw0rdxxxxxxxxxxxxxxxxxxxxxxxxxxxxxxxxxxxxxxxxxxxxxxxxxxxxxxxxxxxxxxxx"%string in
  let w1 := snd (post_register env0 (at_time t0)
                   (credentials "alice_01" p) Db.empty) in
  length (Js.lit p) = 72 /\
  fst (post_register env0 (at_time t0) (credentials "alice_01" p) Db.empty)
    = Ok (json 201 (Created "User created successfully" 0
                      (Some (Js.lit "alice_01")))) /\
  (exists accessToken refreshToken,
     fst (post_login env0 (at_time (t0 + minute))
            (credentials "alice_01" (p ++ "1")) w1)
       = Ok (json 200 (LoggedIn accessToken refreshToken 0
                         (Some (Js.lit "alice_01")) false))) /\
  fst (post_login env0 (at_time (t0 + minute))
         (credentials "alice_01" "Passw0rd") w1)
    = Ok (json 401 (ErrorBody "Invalid credentials")).
Proof.
  split; [reflexivity|]. split; [reflexivity|].
  split; [do 2 eexists|]; vm_compute; reflexivity.
Qed.

End SessionFacts.

(* ================================================================== *)
(** ** The Authorization header and the tokens of the login *)

Module HeaderFacts.
Import Http Auth Api Spec Terms JwtFacts Scenario.

Lemma split_space_other c rest :
  c <> Jwt.Chr " "%char ->
  Jwt.split_space (c :: rest) =
    match Jwt.split_space rest with
    | h :: t => (c :: h) :: t
    | [] => [[c]]
    end.
Proof.
  intros Hc. destruct c as [a|t]; [|reflexivity].
  destruct a as [[] [] [] [] [] [] [] []]; try reflexivity.
  exfalso. apply Hc. reflexivity.
Qed.

Lemma split_space_cut s rest :
  spaceless s ->
  Jwt.split_space (s ++ Jwt.Chr " "%char :: rest) =
    s :: Jwt.split_space rest.
Proof.
  induction 1 as [|c s Hc Hs IH]; [reflexivity|].
  cbn [app]. rewrite split_space_other by assumption. now rewrite IH.
Qed.

Lemma split_space_one s : spaceless s -> Jwt.split_space s = [s].
Proof.
  induction 1 as [|c s Hc Hs IH]; [reflexivity|].
  rewrite split_space_other by assumption. now rewrite IH.
Qed.

Lemma bearer_header scheme t :
  spaceless scheme -> spaceless t ->
  bearer (Some (header scheme t)) = Some t.
Proof.
  intros Hs Ht. unfold bearer, header.
  destruct (scheme ++ Jwt.Chr " "%char :: t) eqn:E;
    [destruct scheme; discriminate|].
  rewrite <- E, split_space_cut, split_space_one by assumption.
  reflexivity.
Qed.

Lemma Bearer_spaceless : spaceless (Jwt.lit "Bearer").
Proof. repeat constructor; discriminate. Qed.

(** X11.  The middleware takes the second space-separated field of the
    Authorization header as the token.  The scheme word is not checked,
    what follows a further space is ignored, and a header that is the
    bare token carries no token. *)
Theorem bearer_is_second_field scheme t :
  spaceless scheme ->
  spaceless t ->
  bearer (Some (header scheme t)) = Some t /\
  (forall rest,
     bearer (Some (header scheme (t ++ Jwt.Chr " "%char :: rest))) = Some t) /\
  (t <> [] -> bearer (Some t) = None) /\
  (forall env sys req req',
     authorization req = Some (header scheme t) ->
     authorization req' = Some (header (Jwt.lit "Bearer") t) ->
     authenticateToken env sys req = authenticateToken env sys req').
Proof.
  intros Hs Ht. split; [now apply bearer_header|]. split; [|split].
  - intros rest. unfold bearer, header.
    destruct (scheme ++ Jwt.Chr " "%char :: t ++ Jwt.Chr " "%char :: rest)
      eqn:E; [destruct scheme; discriminate|].
    rewrite <- E, !split_space_cut by assumption. reflexivity.
  - intros Hne. unfold bearer. destruct t as [|c t]; [congruence|].
    rewrite split_space_one by assumption. reflexivity.
  - intros env sys req req' H H'. unfold authenticateToken.
    rewrite H, H', !bearer_header; auto using Bearer_spaceless.
Qed.

Lemma bearer_is_second_field_witness :
  bearer (Some (header (Jwt.lit "Token") alice_access)) = Some alice_access /\
  bearer (Some alice_access) = None.
Proof.
  destruct (bearer_is_second_field (Jwt.lit "Token") alice_access)
    as (H1 & _ & H3 & _).
  - repeat constructor; discriminate.
  - repeat constructor; discriminate.
  - split; [exact H1 | apply H3; discriminate].
Defined.

Lemma access_token_spaceless env sys u :
  spaceless (generateAccessToken env sys u).
Proof. repeat constructor; discriminate. Qed.

Lemma refresh_token_spaceless env sys u :
  spaceless (issued_refresh env sys u).
Proof. repeat constructor; discriminate. Qed.

Lemma access_token_verdict env sys u sys' req :
  bearing (generateAccessToken env sys u) req ->
  authenticateToken env sys' req =
    if (Jwt.seconds (now sys) + 900 <=? Jwt.seconds (now sys'))%Z
    then Reject (json 401 (ErrorBody "Token expired"))
    else Next {| userId := Some (Db._id u); name := Db.name u;
                 isAdmin := false |}.
Proof.
  intros Hb. unfold bearing in Hb. unfold authenticateToken.
  rewrite Hb, bearer_header
    by auto using Bearer_spaceless, access_token_spaceless.
  unfold generateAccessToken, Jwt.sign, Jwt.verify.
  cbn [Jwt.truthy negb Jwt.key Jwt.payload Jwt.exp].
  rewrite String.eqb_refl.
  change (15 * 60)%Z with 900%Z.
  destruct (Jwt.seconds (now sys) + 900 <=? Jwt.seconds (now sys'))%Z;
    reflexivity.
Qed.

(** X6.  The access token that login and refresh sign for a user is
    accepted by the resource server for fifteen minutes: until then the
    request is admitted with that user's id and name and with no admin
    right; from then on it is answered 401 as expired. *)
Theorem access_token_at_resource_server env sys u sys' req :
  bearing (generateAccessToken env sys u) req ->
  ((Jwt.seconds (now sys') < Jwt.seconds (now sys) + 900)%Z ->
   authenticateToken env sys' req =
     Next {| userId := Some (Db._id u); name := Db.name u;
             isAdmin := false |}) /\
  ((Jwt.seconds (now sys) + 900 <= Jwt.seconds (now sys'))%Z ->
   authenticateToken env sys' req =
     Reject (json 401 (ErrorBody "Token expired"))).
Proof.
  intros Hb. rewrite (access_token_verdict env sys u sys' req Hb).
  destruct (Z.leb_spec (Jwt.seconds (now sys) + 900) (Jwt.seconds (now sys')));
    split; intros; try lia; reflexivity.
Qed.

Lemma access_token_at_resource_server_witness :
  authenticateToken env0 (at_time (t0 + 14 * minute))
    (with_header (header (Jwt.lit "Bearer") alice_access)) =
    Next {| userId := Some 0; name := Some (Js.lit "alice_01"); isAdmin := false |} /\
  authenticateToken env0 (at_time (t0 + 15 * minute))
    (with_header (header (Jwt.lit "Bearer") alice_access)) =
    Reject (json 401 (ErrorBody "Token expired")).
Proof.
  split.
  - apply (proj1 (access_token_at_resource_server env0 (at_time t0)
             (stored_user (at_time t0) 0 (Js.lit "alice_01") (Js.lit "Passw0rd!"))
             (at_time (t0 + 14 * minute))
             (with_header (header (Jwt.lit "Bearer") alice_access))
             eq_refl)).
    reflexivity.
  - apply (proj2 (access_token_at_resource_server env0 (at_time t0)
             (stored_user (at_time t0) 0 (Js.lit "alice_01") (Js.lit "Passw0rd!"))
             (at_time (t0 + 15 * minute))
             (with_header (header (Jwt.lit "Bearer") alice_access))
             eq_refl)).
    vm_compute. discriminate.
Defined.

(** X7.  With distinct secrets, a refresh token is never accepted as an
    access token: the resource server answers 403.  Were the two secrets
    the same, it would admit the bearer of an unexpired refresh token. *)
Theorem refresh_token_is_no_access_token env sys u sys' req :
  bearing (issued_refresh env sys u) req ->
  (ACCESS_TOKEN_SECRET env <> REFRESH_TOKEN_SECRET env ->
   authenticateToken env sys' req =
     Reject (json 403 (ErrorBody "Invalid token"))) /\
  (ACCESS_TOKEN_SECRET env = REFRESH_TOKEN_SECRET env ->
   (Jwt.seconds (now sys') < Jwt.seconds (now sys) + 604800)%Z ->
   authenticateToken env sys' req =
     Next {| userId := Some (Db._id u); name := None; isAdmin := false |}).
Proof.
  intros Hb. unfold bearing in Hb. unfold authenticateToken.
  rewrite Hb, bearer_header
    by auto using Bearer_spaceless, refresh_token_spaceless.
  unfold issued_refresh, Jwt.sign, Jwt.verify.
  cbn [Jwt.truthy negb Jwt.key Jwt.payload Jwt.exp].
  change (7 * 24 * 60 * 60)%Z with 604800%Z.
  split.
  - intros Hne.
    destruct (String.eqb_spec (REFRESH_TOKEN_SECRET env)
                (ACCESS_TOKEN_SECRET env)); [congruence | reflexivity].
  - intros <- Hlt. rewrite String.eqb_refl.
    destruct (Z.leb_spec (Jwt.seconds (now sys) + 604800)
                (Jwt.seconds (now sys'))); [lia | reflexivity].
Qed.

Lemma refresh_token_is_no_access_token_witness :
  authenticateToken env0 (at_time (t0 + minute))
    (with_header (header (Jwt.lit "Bearer") alice_refresh)) =
    Reject (json 403 (ErrorBody "Invalid token")).
Proof.
  apply (proj1 (refresh_token_is_no_access_token env0 (at_time t0)
           (stored_user (at_time t0) 0 (Js.lit "alice_01") (Js.lit "Passw0rd!"))
           (at_time (t0 + minute))
           (with_header (header (Jwt.lit "Bearer") alice_refresh))
           eq_refl)).
  discriminate.
Defined.

End HeaderFacts.

(* ================================================================== *)
(** ** The password test, exactly *)

Module ValidationFacts.
Import Auth Spec Terms RegexFacts.

Lemma dot_iff c : Js.dot c = true <-> ~ line_break c.
Proof.
  unfold Js.dot, Js.is_line_terminator, line_break.
  rewrite negb_true_iff, !orb_false_iff, !N.eqb_neq. tauto.
Qed.

(** X10.  A password passes the test of the register handler exactly
    when it has at least 8 UTF-16 code units, an uppercase letter, a
    lowercase letter and a digit among them, and no line terminator:
    the [.] of the pattern matches neither a line feed, nor a carriage
    return, nor U+2028, nor U+2029. *)
Theorem passwordRegex_exact v :
  passwordRegex_test v = true <->
  password_ok (Js.ToString v) /\
  forall c, In c (Js.ToString v) -> ~ line_break c.
Proof.
  split.
  - intros H. split; [now apply passwordRegex_sound|].
    unfold passwordRegex_test in H. rewrite !andb_true_iff in H.
    destruct H as [[_ Hd] _]. rewrite forallb_forall in Hd.
    intros c Hc. apply dot_iff. auto.
  - intros [Hok Hd]. apply passwordRegex_complete; [assumption|].
    apply forallb_forall. intros c Hc. apply dot_iff. auto.
Qed.

End ValidationFacts.

(* ================================================================== *)
(** ** The earlier server against the current one *)

Module LegacyFacts.
Import Db Http Auth Spec Terms EqFacts DbFacts RegexFacts Invariants Scenario.

Ltac unfold_both :=
  cbv beta iota zeta delta
    [AuthV1.post_token AuthV1.post_register post_token post_register
     try_catch bind ret throw gets modify record_call freshId
     bcrypt_hash new_User User_save without
     RefreshToken_findOne RefreshToken_deleteOne User_findById User_findOne].

(** X13.  The earlier refresh handler gives every request the answer the
    current one gives, and never writes: it keeps the row of a token
    that fails verification, which the current handler deletes. *)
Theorem earlier_refresh_never_writes env sys req w :
  fst (AuthV1.post_token env sys req w) = fst (post_token env sys req w) /\
  snd (AuthV1.post_token env sys req w) = w.
Proof.
  unfold_both. split_cases; split; reflexivity.
Qed.



(** X15.  On a request that passes the two tests of the current register
    handler, the earlier handler leaves the same world; when the request
    carries a name it also gives the same answer, but for a name already
    taken: there the earlier one answers 400 and the current one 409. *)
Theorem registers_agree_when_valid env sys req w :
  usernameRegex_test (body_name req) = true ->
  passwordRegex_test (body_password req) = true ->
  snd (AuthV1.post_register env sys req w) =
    snd (post_register env sys req w) /\
  (body_name req <> None ->
   find (name_is (body_name req)) (users w) = None ->
   fst (AuthV1.post_register env sys req w) =
     fst (post_register env sys req w)) /\
  (find (name_is (body_name req)) (users w) <> None ->
   fst (AuthV1.post_register env sys req w) =
     Ok (json 400 (ErrorBody "Username already exists")) /\
   fst (post_register env sys req w) =
     Ok (json 409 (ErrorBody "Username already exists"))).
Proof.
  intros Hn Hp.
  assert (Hlen : forall n, body_name req = Some n ->
            (length n <? 3) || (30 <? length n) = false).
  { intros n Hb. rewrite Hb in Hn.
    apply usernameRegex_iff in Hn as [[H3 H20] _]. cbn [Js.ToString] in *.
    apply orb_false_iff. rewrite !Nat.ltb_ge. lia. }
  destruct (body_password req) as [p|] eqn:Hpw;
    [|vm_compute in Hp; discriminate Hp].
  unfold_both. rewrite Hn, Hpw, Hp.
  cbv beta iota delta [negb init_name init_password].
  unfold User_validate. cbn [name password users].
  destruct (find (name_is (body_name req)) (users w)) as [u|] eqn:Hf.
  - split; [reflexivity|]. split; [discriminate|].
    intros _. split; reflexivity.
  - pose proof (proj1 (find_none_existsb _ _) Hf) as Hex.
    destruct (body_name req) as [n|] eqn:Hb.
    + rewrite (Hlen n eq_refl). cbn [users]. rewrite Hex.
      split; [reflexivity|]. split; [reflexivity | congruence].
    + split; [reflexivity|]. split; congruence.
Qed.

Lemma registers_agree_when_valid_witness :
  snd (AuthV1.post_register env0 (at_time t0) alice registered) =
    snd (post_register env0 (at_time t0) alice registered) /\
  fst (AuthV1.post_register env0 (at_time t0) alice registered) =
    Ok (json 400 (ErrorBody "Username already exists")) /\
  fst (post_register env0 (at_time t0) alice registered) =
    Ok (json 409 (ErrorBody "Username already exists")).
Proof.
  destruct (registers_agree_when_valid env0 (at_time t0) alice registered
              eq_refl eq_refl) as (H1 & _ & H3).
  split; [exact H1|]. apply H3. discriminate.
Defined.

End LegacyFacts.

(* ================================================================== *)
(** ** Routes of the resource server behind the middleware *)

Module ResourceFacts.
Import Http Auth Api Resource Spec Terms HeaderFacts Scenario.

(** The notes of user [u] for course [c]. *)
Lemma Note_find_spec c u s n :
  In n (Note_find c (Some u) s) <->
  In n (notes s) /\ note_courseId n = c /\ note_userId n = u.
Proof.
  unfold Note_find. rewrite filter_In, andb_true_iff, !Nat.eqb_eq. tauto.
Qed.

Lemma admitted env sys u sys' req :
  bearing (generateAccessToken env sys u) req ->
  (Jwt.seconds (now sys') < Jwt.seconds (now sys) + 900)%Z ->
  authenticateToken env sys' req =
    Next {| userId := Some (Db._id u); name := Db.name u; isAdmin := false |}.
Proof.
  intros Hb Hlt. rewrite (access_token_verdict env sys u sys' req Hb).
  destruct (Z.leb_spec (Jwt.seconds (now sys) + 900) (Jwt.seconds (now sys')));
    [lia | reflexivity].
Qed.

(** X16.  [GET /courses/:id/notes], asked with the access token of a
    user, answers with that user's notes for that course and with no
    other note: 200 with exactly those notes when there are some, 404
    when there are none.  An id that [ObjectId.isValid] refuses is
    answered 400. *)
Theorem notes_of_the_requester_only env sys u sys' req s :
  bearing (generateAccessToken env sys u) req ->
  (Jwt.seconds (now sys') < Jwt.seconds (now sys) + 900)%Z ->
  route env sys' req (fun user => get_course_notes user None s) =
    inr (rjson 400 (RError "Invalid course ID format")) /\
  forall c, exists res,
    route env sys' req (fun user => get_course_notes user (Some c) s) =
      inr res /\
    (rstatus res = 404 <->
     forall n, In n (notes s) ->
               ~ (note_courseId n = c /\ note_userId n = Db._id u)) /\
    (rstatus res <> 404 ->
     exists found,
       res = rjson 200 (RNotes found) /\
       forall n, In n found <->
                 In n (notes s) /\ note_courseId n = c /\
                 note_userId n = Db._id u).
Proof.
  intros Hb Hlt. unfold route. rewrite (admitted env sys u sys' req Hb Hlt).
  split; [reflexivity|]. intros c.
  unfold get_course_notes. cbn [userId].
  pose proof (fun n => Note_find_spec c (Db._id u) s n) as Hspec.
  destruct (Note_find c (Some (Db._id u)) s) as [|n0 l] eqn:E.
  - eexists. split; [reflexivity|]. cbn [rstatus rjson]. split.
    + split; [|reflexivity]. intros _ n Hin [Hc Hu].
      apply (proj2 (Hspec n)); auto.
    + congruence.
  - eexists. split; [reflexivity|]. cbn [rstatus rjson]. split.
    + split; [discriminate|]. intros Hnone. exfalso.
      destruct (proj1 (Hspec n0) (or_introl eq_refl)) as (Hin & Hc & Hu).
      apply (Hnone n0 Hin). auto.
    + intros _. eexists. split; [reflexivity | exact Hspec].
Qed.

Lemma notes_of_the_requester_only_witness :
  route env0 (at_time (t0 + minute))
    (with_header (header (Jwt.lit "Bearer") alice_access))
    (fun user => get_course_notes user None Shelf.shelf) =
    inr (rjson 400 (RError "Invalid course ID format")) /\
  forall c, exists res,
    route env0 (at_time (t0 + minute))
      (with_header (header (Jwt.lit "Bearer") alice_access))
      (fun user => get_course_notes user (Some c) Shelf.shelf) = inr res /\
    (rstatus res = 404 <->
     forall n, In n (notes Shelf.shelf) ->
               ~ (note_courseId n = c /\ note_userId n = 0)) /\
    (rstatus res <> 404 ->
     exists found,
       res = rjson 200 (RNotes found) /\
       forall n, In n found <->
                 In n (notes Shelf.shelf) /\ note_courseId n = c /\
                 note_userId n = 0).
Proof.
  apply (notes_of_the_requester_only env0 (at_time t0)
           (stored_user (at_time t0) 0 (Js.lit "alice_01") (Js.lit "Passw0rd!"))
           (at_time (t0 + minute))
           (with_header (header (Jwt.lit "Bearer") alice_access))
           Shelf.shelf).
  - reflexivity.
  - reflexivity.
Defined.

Example alice_reads_her_notes :
  route env0 (at_time (t0 + minute))
    (with_header (header (Jwt.lit "Bearer") alice_access))
    (fun user => get_course_notes user (Some 7) Shelf.shelf) =
    inr (rjson 200 (RNotes [Shelf.note 1 7 0 "CSS Flexbox"])).
Proof. reflexivity. Qed.

Lemma get_progress_cases user param s :
  get_progress user param s =
    if differs (userId user) param && negb (isAdmin user)
    then rjson 403 (RError "Unauthorized access")
    else rjson 500 (RError "Failed to fetch progress").
Proof.
  unfold get_progress, get_progress_try.
  destruct (differs (userId user) param && negb (isAdmin user)); reflexivity.
Qed.

(** X17.  In this version of the resource server [GET /progress/:userId]
    never answers 200, for no user and no store: after the authorization
    check the handler reads an identifier that is not declared, and the
    [catch] turns the error into 500.  Asked with the access token of a
    user, it answers 403 for another user's id and 500 for the user's
    own. *)
Theorem progress_route_never_succeeds env sys u sys' req param s :
  (forall user, rstatus (get_progress user param s) = 403 \/
                rstatus (get_progress user param s) = 500) /\
  (bearing (generateAccessToken env sys u) req ->
   (Jwt.seconds (now sys') < Jwt.seconds (now sys) + 900)%Z ->
   (param <> ObjectIdText (Db._id u) ->
    route env sys' req (fun user => get_progress user param s) =
      inr (rjson 403 (RError "Unauthorized access"))) /\
   (param = ObjectIdText (Db._id u) ->
    route env sys' req (fun user => get_progress user param s) =
      inr (rjson 500 (RError "Failed to fetch progress")))).
Proof.
  split.
  - intros user. rewrite get_progress_cases.
    destruct (differs (userId user) param && negb (isAdmin user)); auto.
  - intros Hb Hlt. unfold route.
    rewrite (admitted env sys u sys' req Hb Hlt), get_progress_cases.
    cbn [userId isAdmin differs negb]. rewrite andb_true_r. split.
    + intros Hne. destruct param as [i|t]; cbn [IdText_eqb negb].
      * destruct (Nat.eqb_spec (Db._id u) i); [congruence | reflexivity].
      * reflexivity.
    + intros ->. cbn [IdText_eqb]. rewrite Nat.eqb_refl. reflexivity.
Qed.

Lemma progress_route_never_succeeds_witness :
  route env0 (at_time (t0 + minute))
    (with_header (header (Jwt.lit "Bearer") alice_access))
    (fun user => get_progress user (ObjectIdText 1) Shelf.shelf) =
    inr (rjson 403 (RError "Unauthorized access")) /\
  route env0 (at_time (t0 + minute))
    (with_header (header (Jwt.lit "Bearer") alice_access))
    (fun user => get_progress user (ObjectIdText 0) Shelf.shelf) =
    inr (rjson 500 (RError "Failed to fetch progress")).
Proof.
  split.
  - apply (proj1 (proj2 (progress_route_never_succeeds env0 (at_time t0)
             (stored_user (at_time t0) 0 (Js.lit "alice_01") (Js.lit "Passw0rd!"))
             (at_time (t0 + minute))
             (with_header (header (Jwt.lit "Bearer") alice_access))
             (ObjectIdText 1) Shelf.shelf) eq_refl eq_refl)).
    discriminate.
  - apply (proj2 (proj2 (progress_route_never_succeeds env0 (at_time t0)
             (stored_user (at_time t0) 0 (Js.lit "alice_01") (Js.lit "Passw0rd!"))
             (at_time (t0 + minute))
             (with_header (header (Jwt.lit "Bearer") alice_access))
             (ObjectIdText 0) Shelf.shelf) eq_refl eq_refl)).
    reflexivity.
Defined.

End ResourceFacts.
